(** * A shallow embedding of the OpsBeacon Python SDK client ([src/opsbeacon/client.py])

    Parsed JSON values are modelled by [json]; Python exceptions by [exc];
    every client method is a computation in the monad [M], which threads the
    log of outgoing HTTP requests and may raise an exception.  The network,
    the local file system and the hash order of Python sets are section
    variables: each theorem holds for every behaviour of them. *)

From Stdlib Require Import String Ascii List ZArith Bool Lia.
Import ListNotations.
Open Scope list_scope.
Open Scope string_scope.
Set Warnings "-register-all".

(** ** Parsed JSON values (numbers are integers) *)

Inductive json : Type :=
| JNull
| JBool (b : bool)
| JNum (n : Z)
| JStr (s : string)
| JArr (l : list json)
| JObj (fs : list (string * json)).

Fixpoint assoc_lookup (k : string) (fs : list (string * json)) : option json :=
  match fs with
  | [] => None
  | (k', v) :: r => if String.eqb k k' then Some v else assoc_lookup k r
  end.

(** [d[k] = v] on a dict: replace in place, or append a new key. *)
Fixpoint assoc_set (k : string) (v : json) (fs : list (string * json))
  : list (string * json) :=
  match fs with
  | [] => [(k, v)]
  | (k', v') :: r => if String.eqb k k' then (k', v) :: r else (k', v') :: assoc_set k v r
  end.

(** Python truthiness of a JSON value. *)
Definition py_truthy (v : json) : bool :=
  match v with
  | JNull => false
  | JBool b => b
  | JNum n => negb (Z.eqb n 0)
  | JStr s => negb (String.eqb s "")
  | JArr l => match l with [] => false | _ => true end
  | JObj fs => match fs with [] => false | _ => true end
  end.

(** [v == s] for a Python string [s]. *)
Definition is_str (v : json) (s : string) : bool :=
  match v with JStr s' => String.eqb s' s | _ => false end.

(** Truthiness of an [Optional[str]] argument. *)
Definition opt_truthy (o : option string) : bool :=
  match o with Some s => negb (String.eqb s "") | None => false end.

(** ** Exceptions of [src/opsbeacon/exceptions.py] and the builtins that escape *)

Inductive pymsg : Type :=
| MText (s : string)                 (* a literal or f-string over strings *)
| MFmt (prefix : string) (v : json)  (* f"{prefix}{v}" for a JSON value *)
| MExc (prefix : string) (e : exc)   (* f"{prefix}{e}" for a wrapped exception *)
with exc : Type :=
| ValidationError (message : string) (field : option string)
| AuthenticationError (message : string)
| APIError (message : pymsg) (status_code : option Z) (response_body : option string)
| RateLimitError (retry_after : option Z)
| ConnectionError (message : string)
| TimeoutError
| ResourceNotFoundError (resource_type resource_id : string)
| CommandExecutionError (message : pymsg) (command connection : option string)
| FileOperationError (message : pymsg) (file_name operation : option string)
| MCPError (message : pymsg) (trigger_name : option string)
| JSONDecodeError
| ValueError (message : string)
| AttributeError
| TypeError
| KeyError (key : string)
| OSError.

(** [RateLimitError] is the one subclass of [APIError]. *)
Definition is_api_error (e : exc) : bool :=
  match e with APIError _ _ _ | RateLimitError _ => true | _ => false end.

(** ** HTTP requests and responses *)

Inductive upload_src : Type :=
| FContent (content : string)   (* in-memory string *)
| FHandle (path : string).      (* [Path(path).open("rb")] *)

Record req : Type := mk_req {
  rq_method : string;
  rq_url : string;
  rq_json : option json;
  rq_data : option (list (string * string));
  rq_files : option (string * upload_src * string)
}.

Record response : Type := mk_response {
  status_code : Z;
  resp_headers : list (string * string);
  text : string;
  json_body : option json          (* [None]: the body is not JSON *)
}.

Inductive request_exc : Type :=
| RqConnection (m : string)
| RqTimeout (m : string)
| RqOther (m : string)
| RqHTTPError (status : Z)     (* raised by [raise_for_status] *)
| RqJSONDecode.                (* requests' JSONDecodeError is a RequestException *)

Inductive net_result : Type :=
| NetResponse (r : response)
| NetFailure (e : request_exc).

(** ** The client monad: request log threaded through, exceptions raised *)

Inductive outcome (A : Type) : Type :=
| Ok (a : A)
| Raise (e : exc).
Arguments Ok {A} a.
Arguments Raise {A} e.

Definition M (A : Type) : Type := list req -> outcome A * list req.

Definition ret {A} (a : A) : M A := fun log => (Ok a, log).
Definition raise {A} (e : exc) : M A := fun log => (Raise e, log).
Definition bind {A B} (m : M A) (k : A -> M B) : M B :=
  fun log => match m log with
             | (Ok a, log') => k a log'
             | (Raise e, log') => (Raise e, log')
             end.
Definition try_except {A} (m : M A) (h : exc -> M A) : M A :=
  fun log => match m log with
             | (Ok a, log') => (Ok a, log')
             | (Raise e, log') => h e log'
             end.

Definition lift {A} (o : outcome A) : M A :=
  match o with Ok a => ret a | Raise e => raise e end.

Notation "x <- m ;; k" := (bind m (fun x => k))
  (at level 61, m at next level, right associativity).

(** ** Python operations on JSON values *)

(** [d.get(k, default)] on a dict. *)
Definition dict_get (fs : list (string * json)) (k : string) (d : json) : json :=
  match assoc_lookup k fs with Some x => x | None => d end.

Definition py_get (v : json) (k : string) (d : json) : M json :=
  match v with
  | JObj fs => ret (dict_get fs k d)
  | _ => raise AttributeError
  end.

Definition py_getitem (v : json) (k : string) : M json :=
  match v with
  | JObj fs => match assoc_lookup k fs with Some x => ret x | None => raise (KeyError k) end
  | _ => raise TypeError
  end.

Definition chars (s : string) : list ascii := list_ascii_of_string s.

(** [for x in v]: a list yields its items, a dict its keys, a string its characters. *)
Definition py_iter (v : json) : M (list json) :=
  match v with
  | JArr l => ret l
  | JObj fs => ret (map (fun kv => JStr (fst kv)) fs)
  | JStr s => ret (map (fun c => JStr (String c EmptyString)) (chars s))
  | _ => raise TypeError
  end.

(** [k in v] for a string [k]. *)
Definition py_contains (v : json) (k : string) : M bool :=
  match v with
  | JObj fs => ret (match assoc_lookup k fs with Some _ => true | None => false end)
  | JArr l => ret (existsb (fun x => is_str x k) l)
  | JStr s => ret (match String.index 0 k s with Some _ => true | None => false end)
  | _ => raise TypeError
  end.

(** [v[0]] *)
Definition py_index0 (v : json) : M json :=
  match v with
  | JArr (x :: _) => ret x
  | JArr [] => raise (ValueError "list index out of range")
  | JObj _ => raise (KeyError "0")
  | JStr s => match chars s with
              | c :: _ => ret (JStr (String c EmptyString))
              | [] => raise (ValueError "string index out of range")
              end
  | _ => raise TypeError
  end.

(** ** Python's [int(str)] in base 10 *)

Definition ascii_code (c : ascii) : nat := nat_of_ascii c.

Definition py_isspace (c : ascii) : bool :=
  let n := ascii_code c in
  ((9 <=? n) && (n <=? 13))%nat || ((28 <=? n) && (n <=? 32))%nat.

Definition is_digit (c : ascii) : bool :=
  let n := ascii_code c in ((48 <=? n) && (n <=? 57))%nat.

Fixpoint drop_space (cs : list ascii) : list ascii :=
  match cs with
  | c :: r => if py_isspace c then drop_space r else cs
  | [] => []
  end.

Definition py_strip (cs : list ascii) : list ascii :=
  rev (drop_space (rev (drop_space cs))).

(** Digits with single underscores between them. *)
Fixpoint parse_digits (cs : list ascii) (acc : Z) (prev_us seen : bool) : option Z :=
  match cs with
  | [] => if seen && negb prev_us then Some acc else None
  | c :: r =>
      if is_digit c then
        parse_digits r (acc * 10 + Z.of_nat (ascii_code c - 48)) false true
      else if (c =? "_")%char && seen && negb prev_us then parse_digits r acc true seen
      else None
  end.

(** [None]: [int] raises [ValueError]. *)
Definition py_int (s : string) : option Z :=
  match py_strip (chars s) with
  | c :: r =>
      if (c =? "+")%char then parse_digits r 0 false false
      else if (c =? "-")%char then option_map Z.opp (parse_digits r 0 false false)
      else parse_digits (c :: r) 0 false false
  | [] => None
  end.

(** ** [_handle_response_error] *)

Definition ascii_lower (c : ascii) : ascii :=
  let n := ascii_code c in
  if ((65 <=? n) && (n <=? 90))%nat then ascii_of_nat (n + 32) else c.

Definition str_lower (s : string) : string :=
  string_of_list_ascii (map ascii_lower (chars s)).

(** [response.headers.get(k)]: a case-insensitive dict. *)
Fixpoint header_get (k : string) (hs : list (string * string)) : option string :=
  match hs with
  | [] => None
  | (k', v) :: r => if String.eqb (str_lower k) (str_lower k') then Some v else header_get k r
  end.

(** [Some e]: the method raises [e]; [None]: it returns normally. *)
Definition _handle_response_error (r : response) : option exc :=
  let s := status_code r in
  if Z.eqb s 401 then Some (AuthenticationError "Authentication failed. Check your API token.")
  else if Z.eqb s 403 then Some (AuthenticationError "Access forbidden. Check your API token permissions.")
  else if Z.eqb s 404 then Some (APIError (MText "Resource not found") (Some 404%Z) (Some (text r)))
  else if Z.eqb s 429 then
    let retry_after := header_get "Retry-After" (resp_headers r) in
    match retry_after with
    | Some v =>
        if negb (String.eqb v "") then
          match py_int v with
          | Some n => Some (RateLimitError (Some n))
          | None => Some (ValueError ("invalid literal for int() with base 10: " ++ v))
          end
        else Some (RateLimitError None)
    | None => Some (RateLimitError None)
    end
  else if Z.leb 400 s then
    let error_msg :=
      match json_body r with
      | Some (JObj fs) =>
          let inner := match assoc_lookup "error" fs with Some x => x | None => JStr (text r) end in
          Some (match assoc_lookup "err" fs with Some x => x | None => inner end)
      | Some _ => None                       (* [.get] on a non-dict *)
      | None => Some (JStr (text r))         (* the [ValueError] branch *)
      end in
    match error_msg with
    | Some m => Some (APIError (MFmt "API error: " m) (Some s) (Some (text r)))
    | None => Some AttributeError
    end
  else None.

(** [response.ok]: [raise_for_status] raises for 400 <= status < 600. *)
Definition response_ok (r : response) : bool :=
  negb (Z.leb 400 (status_code r) && Z.ltb (status_code r) 600).

Definition resp_json (r : response) : M json :=
  match json_body r with Some j => ret j | None => raise JSONDecodeError end.

(** ** [shlex.split(s)]: posix mode, [whitespace_split=True], no comment characters

    The states of [shlex.read_token]: [None], [' '], ['a'], inside a quote, and
    after the escape character.  [escapedstate] is the state an escape returns to. *)

Inductive lstate : Type :=
| LNone
| LSpace
| LWord
| LQuote (q : ascii)
| LEscape.

Definition backslash : ascii := "\"%char.
Definition dquote : ascii := "034"%char.
Definition squote : ascii := "'"%char.

(** [shlex.whitespace = ' \t\r\n'] *)
Definition sh_whitespace (c : ascii) : bool :=
  let n := ascii_code c in (n =? 32)%nat || (n =? 9)%nat || (n =? 13)%nat || (n =? 10)%nat.
Definition sh_quote (c : ascii) : bool := (c =? squote)%char || (c =? dquote)%char.
Definition sh_escape (c : ascii) : bool := (c =? backslash)%char.

(** The [while True] loop of [read_token] from its first read on: the
    token read so far, [quoted], the state after it, and the unread input. *)
Fixpoint rt_loop (inp : list ascii) (state escapedstate : lstate) (token : list ascii)
    (quoted : bool) : outcome (list ascii * bool * lstate * list ascii) :=
  match inp with
  | [] =>                                           (* nextchar == '' *)
      match state with
      | LNone => Ok ([], quoted, LNone, [])
      | LSpace | LWord => Ok (token, quoted, LNone, [])
      | LQuote _ => Raise (ValueError "No closing quotation")
      | LEscape => Raise (ValueError "No escaped character")
      end
  | nextchar :: rest =>
      match state with
      | LNone => Ok ([], quoted, LNone, rest)
      | LSpace =>
          if sh_whitespace nextchar then
            if negb (match token with [] => true | _ => false end) || quoted
            then Ok (token, quoted, LSpace, rest)
            else rt_loop rest LSpace escapedstate token quoted
          else if sh_escape nextchar then rt_loop rest LEscape LWord token quoted
          else if sh_quote nextchar then rt_loop rest (LQuote nextchar) escapedstate token quoted
          else rt_loop rest LWord escapedstate [nextchar] quoted
      | LQuote q =>
          if (nextchar =? q)%char then rt_loop rest LWord escapedstate token true
          else if sh_escape nextchar && (q =? dquote)%char
          then rt_loop rest LEscape (LQuote q) token true
          else rt_loop rest (LQuote q) escapedstate (app token [nextchar]) true
      | LEscape =>
          let token1 :=
            match escapedstate with
            | LQuote q =>
                if negb (nextchar =? backslash)%char && negb (nextchar =? q)%char
                then app token [backslash] else token
            | _ => token
            end in
          rt_loop rest escapedstate escapedstate (app token1 [nextchar]) quoted
      | LWord =>
          if sh_whitespace nextchar then
            if negb (match token with [] => true | _ => false end) || quoted
            then Ok (token, quoted, LSpace, rest)
            else rt_loop rest LSpace escapedstate token quoted
          else if sh_quote nextchar then rt_loop rest (LQuote nextchar) escapedstate token quoted
          else if sh_escape nextchar then rt_loop rest LEscape LWord token quoted
          else rt_loop rest LWord escapedstate (app token [nextchar]) quoted
      end
  end.

(** [read_token]: [None] is the end-of-file token of posix mode. *)
Definition read_token (state : lstate) (inp : list ascii)
  : outcome (option string * lstate * list ascii) :=
  match rt_loop inp state LSpace [] false with
  | Raise e => Raise e
  | Ok (token, quoted, state', rest) =>
      let result := if negb quoted && (match token with [] => true | _ => false end)
                    then None else Some (string_of_list_ascii token) in
      Ok (result, state', rest)
  end.

(** [list(lex)]: read tokens until [None].  Every token read consumes input,
    so [length inp + 1] rounds are enough. *)
Fixpoint sh_loop (fuel : nat) (state : lstate) (inp : list ascii) : outcome (list string) :=
  match fuel with
  | O => Ok []
  | S fuel' =>
      match read_token state inp with
      | Raise e => Raise e
      | Ok (None, _, _) => Ok []
      | Ok (Some tok, state', rest) =>
          match sh_loop fuel' state' rest with
          | Raise e => Raise e
          | Ok toks => Ok (tok :: toks)
          end
      end
  end.

Definition shlex_split (s : string) : outcome (list string) :=
  sh_loop (S (length (chars s))) LSpace (chars s).

(** [args : Optional[Union[list[str], str]]] of [run] *)
Inductive run_args : Type :=
| ArgsNone
| ArgsStr (s : string)
| ArgsList (l : list string).

(** ** The client *)

Section Client.

(** [self.api_domain], after [rstrip("/")]. *)
Variable api_domain : string.
(** The network: what the HTTP library returns for a request. *)
Variable net : req -> net_result.
(** [str(e)] of an exception raised by the HTTP library. *)
Variable str_request_exception : request_exc -> string.

Definition base_url : string := "https://" ++ api_domain.

(** Sending a request records it in the log, then asks the network. *)
Definition send (rq : req) : M net_result :=
  fun log => (Ok (net rq), app log [rq]).

(** The exception handling of [OpsBeaconClient._request] once the HTTP library
    has answered.  A connect timeout is a [ConnectionError] of the HTTP
    library, so [RqTimeout] stands for the read timeouts. *)
Definition request_outcome (url : string) (n : net_result) : outcome response :=
  match n with
  | NetFailure (RqConnection _) => Raise (ConnectionError ("Failed to connect to " ++ url))
  | NetFailure (RqTimeout _) => Raise TimeoutError
  | NetFailure e => Raise (APIError (MText ("Request failed: " ++ str_request_exception e)) None None)
  | NetResponse r =>
      if negb (response_ok r) then
        match _handle_response_error r with
        | Some e => Raise e
        | None => Ok r
        end
      else Ok r
  end.

(** [OpsBeaconClient._request] *)
Definition _request (method endpoint : string) (json_data : option json)
    (data : option (list (string * string))) (files : option (string * upload_src * string))
  : M response :=
  let url := base_url ++ endpoint in
  n <- send (mk_req method url json_data data files) ;;
  lift (request_outcome url n).

(** [OpsBeaconClient.triggers]; [kind] is [Optional[str]]. *)
Fixpoint filter_kind (kind : string) (ts : list json) : M (list json) :=
  match ts with
  | [] => ret []
  | t :: r =>
      k <- py_get t "kind" JNull ;;
      rest <- filter_kind kind r ;;
      ret (if is_str k kind then t :: rest else rest)
  end.

Definition triggers (kind : option string) : M json :=
  response <- _request "GET" "/workspace/v2/triggers" None None None ;;
  body <- resp_json response ;;
  ts <- py_get body "triggers" (JArr []) ;;
  if opt_truthy kind then
    l <- py_iter ts ;;
    filtered <- filter_kind (match kind with Some k => k | None => "" end) l ;;
    ret (JArr filtered)
  else ret ts.

Definition mcp_triggers : M json := triggers (Some "mcp").

(** The scan of [get_trigger]'s fallback. *)
Fixpoint find_by_name (name : string) (ts : list json) : M (option json) :=
  match ts with
  | [] => ret None
  | t :: r =>
      n <- py_get t "name" JNull ;;
      if is_str n name then ret (Some t) else find_by_name name r
  end.

Definition get_trigger (name : string) : M json :=
  if String.eqb name "" then raise (ValidationError "name is required" (Some "name"))
  else
    try_except
      (response <- _request "GET" ("/workspace/v2/triggers/" ++ name) None None None ;;
       resp_json response)
      (fun e =>
         if is_api_error e then
           all_triggers <- triggers None ;;
           l <- py_iter all_triggers ;;
           found <- find_by_name name l ;;
           match found with
           | Some t => ret t
           | None => raise (ResourceNotFoundError "Trigger" name)
           end
         else raise e).

(** [list(set(xs))]: unhashable values raise [TypeError]; [set_order] is the
    order in which the set lists its distinct elements (it depends on hashing). *)
Variable set_order : list json -> list json.

Definition hashable (v : json) : bool :=
  match v with JArr _ | JObj _ => false | _ => true end.

Definition py_list_set (xs : list json) : M (list json) :=
  if forallb hashable xs then ret (set_order xs) else raise TypeError.

(** [d[k] = x] *)
Definition py_setitem (v : json) (k : string) (x : json) : M json :=
  match v with
  | JObj fs => ret (JObj (assoc_set k x fs))
  | _ => raise TypeError
  end.

(** The loop over [tool_instances] collecting [overrides.command] and
    [overrides.connection] (shared by [create_mcp_trigger] and [update_mcp_trigger]). *)
Fixpoint collect_overrides (ts : list json) (commands connections : list json)
  : M (list json * list json) :=
  match ts with
  | [] => ret (commands, connections)
  | tool :: r =>
      overrides <- py_get tool "overrides" (JObj []) ;;
      c <- py_get overrides "command" JNull ;;
      commands' <- (if py_truthy c then
                      x <- py_getitem overrides "command" ;; ret (app commands [x])
                    else ret commands) ;;
      n <- py_get overrides "connection" JNull ;;
      connections' <- (if py_truthy n then
                         x <- py_getitem overrides "connection" ;; ret (app connections [x])
                       else ret connections) ;;
      collect_overrides r commands' connections'
  end.

Definition opt_list {A} (o : option (list A)) : list A :=
  match o with Some l => l | None => [] end.

Definition create_mcp_trigger (name description : string)
    (tool_instances : option (list json)) (policies : option (list string)) : M json :=
  if String.eqb name "" then raise (ValidationError "name is required" (Some "name"))
  else
    cc <- collect_overrides (opt_list tool_instances) [] [] ;;
    commands <- py_list_set (fst cc) ;;
    connections <- py_list_set (snd cc) ;;
    let payload :=
      JObj [("name", JStr name); ("description", JStr description); ("kind", JStr "mcp");
            ("commands", JArr commands); ("connections", JArr connections);
            ("policies", JArr (map JStr (opt_list policies)));
            ("mcpTriggerInfo", JObj [("toolInstances", JArr (opt_list tool_instances))])] in
    try_except
      (response <- _request "POST" "/workspace/v2/triggers" (Some payload) None None ;;
       result <- resp_json response ;;
       url <- py_get result "url" JNull ;;
       if py_truthy url then
         url' <- py_get result "url" JNull ;;
         token <- py_get result "apiToken" JNull ;;
         ret (JObj [("success", JBool true); ("name", JStr name); ("url", url');
                    ("apiToken", token);
                    ("message", JStr ("MCP trigger '" ++ name ++ "' created successfully"))])
       else
         err <- py_get result "err" JNull ;;
         if py_truthy err then
           err' <- py_getitem result "err" ;;
           raise (MCPError (MFmt "" err') (Some name))
         else ret result)
      (fun e =>
         if is_api_error e then
           raise (MCPError (MExc "Failed to create MCP trigger: " e) (Some name))
         else raise e).

Definition not_mcp_error (name : string) : exc :=
  MCPError (MText ("'" ++ name ++ "' is not an MCP trigger")) (Some name).

(** [payload["mcpTriggerInfo"]] is the dict of [existing] itself, so the
    assignment to its ["toolInstances"] also changes [existing]; [existing]
    is a fresh local value, so this is not observable. *)
Definition update_mcp_trigger (name : string) (description : option string)
    (tool_instances : option (list json)) : M json :=
  if String.eqb name "" then raise (ValidationError "name is required" (Some "name"))
  else
    existing <- get_trigger name ;;
    kind <- py_get existing "kind" JNull ;;
    if negb (is_str kind "mcp") then raise (not_mcp_error name)
    else
      cc <- (match tool_instances with
             | Some ts =>
                 cc <- collect_overrides ts [] [] ;;
                 commands <- py_list_set (fst cc) ;;
                 connections <- py_list_set (snd cc) ;;
                 ret (JArr commands, JArr connections)
             | None =>
                 commands <- py_get existing "commands" (JArr []) ;;
                 connections <- py_get existing "connections" (JArr []) ;;
                 ret (commands, connections)
             end) ;;
      descr <- (match description with
                | Some d => ret (JStr d)
                | None => py_get existing "description" (JStr "")
                end) ;;
      info <- py_get existing "mcpTriggerInfo" (JObj []) ;;
      info' <- (match tool_instances with
                | Some ts => py_setitem info "toolInstances" (JArr ts)
                | None => ret info
                end) ;;
      let payload :=
        JObj [("name", JStr name); ("kind", JStr "mcp"); ("description", descr);
              ("commands", fst cc); ("connections", snd cc); ("mcpTriggerInfo", info')] in
      try_except
        (response <- _request "PUT" ("/workspace/v2/triggers/" ++ name) (Some payload) None None ;;
         resp_json response)
        (fun e =>
           if is_api_error e then
             raise (MCPError (MExc "Failed to update MCP trigger: " e) (Some name))
           else raise e).

(** [JNull] is Python's [None]. *)
Definition get_mcp_trigger_url (name : string) : M json :=
  if String.eqb name "" then raise (ValidationError "name is required" (Some "name"))
  else
    r <- try_except
           (trigger <- get_trigger name ;;
            kind <- py_get trigger "kind" JNull ;;
            if is_str kind "mcp" then
              u <- py_get trigger "triggerUrl" JNull ;; ret (Some u)
            else ret None)
           (fun e => match e with
                     | ResourceNotFoundError _ _ => ret None
                     | _ => raise e
                     end) ;;
    match r with Some u => ret u | None => ret JNull end.

(** The list comprehension of [remove_tool_from_mcp_trigger]. *)
Fixpoint filter_tools (tool_name : string) (ts : list json) : M (list json) :=
  match ts with
  | [] => ret []
  | t :: r =>
      o <- py_get t "overrides" (JObj []) ;;
      n <- py_get o "name" JNull ;;
      rest <- filter_tools tool_name r ;;
      ret (if negb (is_str n tool_name) then t :: rest else rest)
  end.

(** [len(v)] agrees with the length of [py_iter v] on the values it accepts. *)
Definition remove_tool_from_mcp_trigger (trigger_name tool_name : string) : M json :=
  if String.eqb trigger_name "" then
    raise (ValidationError "trigger_name is required" (Some "trigger_name"))
  else if String.eqb tool_name "" then
    raise (ValidationError "tool_name is required" (Some "tool_name"))
  else
    trigger <- get_trigger trigger_name ;;
    kind <- py_get trigger "kind" JNull ;;
    if negb (is_str kind "mcp") then raise (not_mcp_error trigger_name)
    else
      mcp_info <- py_get trigger "mcpTriggerInfo" (JObj []) ;;
      tool_instances <- py_get mcp_info "toolInstances" (JArr []) ;;
      l <- py_iter tool_instances ;;
      updated_tools <- filter_tools tool_name l ;;
      if Nat.eqb (length updated_tools) (length l) then
        raise (ResourceNotFoundError "Tool" tool_name)
      else update_mcp_trigger trigger_name None (Some updated_tools).

(** ** [run] *)

Definition opt_str (o : option string) : string :=
  match o with Some s => s | None => "" end.

(** The request body [run] builds before it sends anything. *)
Definition run_body (command_text connection command : option string) (args : run_args)
  : M json :=
  if opt_truthy command_text then ret (JObj [("commandLine", JStr (opt_str command_text))])
  else if opt_truthy command && opt_truthy connection then
    args_list <- (match args with
                  | ArgsStr a => if negb (String.eqb a "") then lift (shlex_split a) else ret []
                  | ArgsList l => ret l          (* [list(args) if args else []] *)
                  | ArgsNone => ret []
                  end) ;;
    ret (JObj [("command", JStr (opt_str command)); ("connection", JStr (opt_str connection));
               ("arguments", JArr (map JStr args_list))])
  else raise (ValidationError "Either command_text or both connection and command are required" None).

Definition run (command_text connection command : option string) (args : run_args) : M json :=
  body <- run_body command_text connection command args ;;
  try_except
    (response <- _request "POST" "/trigger/v1/api" (Some body) None None ;;
     resp_json response)
    (fun e =>
       if is_api_error e then
         raise (CommandExecutionError (MExc "Command execution failed: " e)
                  (if opt_truthy command then command else command_text) connection)
       else raise e).

(** ** [file_upload] *)

(** [Path(p).exists()], [Path(p).open("rb")] succeeding, and [Path(p).name]. *)
Variable fs_exists : string -> bool.
Variable fs_readable : string -> bool.
Variable path_name : string -> string.

(** The [files] and [data] arguments chosen before the request. *)
Definition upload_parts (file_content file_name input_file : option string)
  : M ((string * upload_src * string) * list (string * string)) :=
  match file_content with
  | Some content =>
      if negb (opt_truthy file_name) then
        raise (ValidationError "file_name is required when uploading content" (Some "file_name"))
      else ret ((opt_str file_name, FContent content, "text/csv"), [("filename", opt_str file_name)])
  | None =>
      match input_file with
      | Some path =>
          if negb (fs_exists path) then
            raise (FileOperationError (MText ("File not found: " ++ path)) (Some path) (Some "upload"))
          else
            let actual_file_name := if opt_truthy file_name then opt_str file_name else path_name path in
            if fs_readable path then
              ret ((actual_file_name, FHandle path, "application/octet-stream"),
                   [("filename", actual_file_name)])
            else raise OSError
      | None => raise (ValidationError "Either file_content or input_file must be provided" None)
      end
  end.

Definition file_upload (file_content file_name input_file : option string) : M string :=
  parts <- upload_parts file_content file_name input_file ;;
  try_except
    (response <- _request "POST" "/workspace/v2/files" None (Some (snd parts)) (Some (fst parts)) ;;
     ret (text response))
    (fun e =>
       if is_api_error e then
         raise (FileOperationError (MExc "Failed to upload file: " e) file_name (Some "upload"))
       else raise e).

(** ** [test_mcp_protocol] *)

Definition SDK_VERSION : string := "1.3.0".

Record mcp_results : Type := mk_results {
  initialize : json;
  tools : json;
  execution : json;
  success : bool
}.

(** [requests.post(...)], [raise_for_status()] and [response.json()]: every
    failure there is a [RequestException].  The bearer token travels in a
    header, which [req] does not record. *)
Definition post_outcome (n : net_result) : request_exc + json :=
  match n with
  | NetFailure e => inl e
  | NetResponse r =>
      if negb (response_ok r) then inl (RqHTTPError (status_code r))
      else match json_body r with Some j => inr j | None => inl RqJSONDecode end
  end.

Definition mcp_req (mcp_url : string) (body : json) : req :=
  mk_req "POST" mcp_url (Some body) None None.

Definition mcp_post (mcp_url : string) (body : json) : M (request_exc + json) :=
  n <- send (mcp_req mcp_url body) ;; ret (post_outcome n).

Definition error_obj (e : request_exc) : json := JObj [("error", JStr (str_request_exception e))].

Definition init_request : json :=
  JObj [("jsonrpc", JStr "2.0"); ("method", JStr "initialize");
        ("params", JObj [("protocolVersion", JStr "0.1.0"); ("capabilities", JObj []);
                         ("clientInfo", JObj [("name", JStr "OpsBeacon Python SDK");
                                              ("version", JStr SDK_VERSION)])]);
        ("id", JNum 1)].

Definition list_request : json :=
  JObj [("jsonrpc", JStr "2.0"); ("method", JStr "tools/list"); ("params", JObj []); ("id", JNum 2)].

Definition exec_request (tool : json) : json :=
  JObj [("jsonrpc", JStr "2.0"); ("method", JStr "tools/call");
        ("params", JObj [("name", tool); ("arguments", JObj [])]); ("id", JNum 3)].

Definition no_tools_marker : json := JObj [("message", JStr "No tools available to execute")].

(** [tools_response["result"]["tools"]] when both keys are there, else [[]]. *)
Definition tools_of (tools_response : json) : M json :=
  has_result <- py_contains tools_response "result" ;;
  if has_result then
    res <- py_getitem tools_response "result" ;;
    has_tools <- py_contains res "tools" ;;
    if has_tools then
      res' <- py_getitem tools_response "result" ;;
      py_getitem res' "tools"
    else ret (JArr [])
  else ret (JArr []).

(** [next((t for t in tools if t["name"] == tool_name), None)] *)
Fixpoint find_tool (tool_name : string) (ts : list json) : M json :=
  match ts with
  | [] => ret JNull
  | t :: r =>
      n <- py_getitem t "name" ;;
      if is_str n tool_name then ret t else find_tool tool_name r
  end.

Definition test_mcp_protocol (mcp_url api_token : string) (tool_name : option string)
  : M mcp_results :=
  if String.eqb mcp_url "" then raise (ValidationError "mcp_url is required" (Some "mcp_url"))
  else if String.eqb api_token "" then
    raise (ValidationError "api_token is required" (Some "api_token"))
  else
    o1 <- mcp_post mcp_url init_request ;;
    match o1 with
    | inl e => ret (mk_results (error_obj e) JNull JNull false)
    | inr init =>
        o2 <- mcp_post mcp_url list_request ;;
        match o2 with
        | inl e => ret (mk_results init (error_obj e) JNull false)
        | inr tools_response =>
            tls <- tools_of tools_response ;;
            if py_truthy tls then
              found <- (if opt_truthy tool_name then
                          l <- py_iter tls ;; find_tool (opt_str tool_name) l
                        else ret JNull) ;;
              tool_to_execute <- (if negb (py_truthy found) then py_index0 tls else ret found) ;;
              if py_truthy tool_to_execute then
                nm <- py_getitem tool_to_execute "name" ;;
                o3 <- mcp_post mcp_url (exec_request nm) ;;
                match o3 with
                | inl e => ret (mk_results init tools_response (error_obj e) false)
                | inr ex =>
                    s <- py_contains ex "result" ;;
                    ret (mk_results init tools_response ex s)
                end
              else ret (mk_results init tools_response JNull false)
            else ret (mk_results init tools_response no_tools_marker false)
        end
    end.

(** ** Commands, connections, users, groups and policies *)

(** [response.json().get(key, [])] of the listing methods. *)
Definition commands : M json :=
  response <- _request "GET" "/workspace/v2/commands" None None None ;;
  body <- resp_json response ;;
  py_get body "commands" (JArr []).

Definition connections : M json :=
  response <- _request "GET" "/workspace/v2/connections" None None None ;;
  body <- resp_json response ;;
  py_get body "connections" (JArr []).

Definition users : M json :=
  response <- _request "GET" "/workspace/v2/users" None None None ;;
  body <- resp_json response ;;
  py_get body "users" (JArr []).

Definition add_user (user : json) : M json :=
  if negb (py_truthy user) then raise (ValidationError "User data is required" (Some "user"))
  else
    response <- _request "POST" "/workspace/v2/users" (Some user) None None ;;
    resp_json response.

Definition delete_user (user_id : string) : M bool :=
  if String.eqb user_id "" then raise (ValidationError "user_id is required" (Some "user_id"))
  else
    _ <- _request "DELETE" ("/workspace/v2/users/" ++ user_id) None None None ;;
    ret true.

Definition groups : M json :=
  response <- _request "GET" "/workspace/v2/policy/group" None None None ;;
  body <- resp_json response ;;
  py_get body "groups" (JArr []).

Definition add_group (group : json) : M json :=
  if negb (py_truthy group) then raise (ValidationError "Group data is required" (Some "group"))
  else
    response <- _request "POST" "/workspace/v2/policy/group" (Some group) None None ;;
    resp_json response.

Definition delete_group (group_name : string) : M bool :=
  if String.eqb group_name "" then
    raise (ValidationError "group_name is required" (Some "group_name"))
  else
    _ <- _request "DELETE" ("/workspace/v2/policy/group/" ++ group_name) None None None ;;
    ret true.

Definition delete_trigger (name : string) : M bool :=
  if String.eqb name "" then raise (ValidationError "name is required" (Some "name"))
  else
    _ <- _request "DELETE" ("/workspace/v2/triggers/" ++ name) None None None ;;
    ret true.

Definition policies : M json :=
  response <- _request "GET" "/workspace/v2/policy" None None None ;;
  body <- resp_json response ;;
  py_get body "policies" (JArr []).

(** [xs or []] for an [Optional[list[str]]]. *)
Definition list_or_empty (o : option (list string)) : list string :=
  match o with Some ((_ :: _) as l) => l | _ => [] end.

Definition create_policy (name description : string)
    (commands connections : option (list string)) : M json :=
  if String.eqb name "" then raise (ValidationError "name is required" (Some "name"))
  else
    let payload :=
      JObj [("name", JStr name); ("description", JStr description);
            ("commands", JArr (map JStr (list_or_empty commands)));
            ("connections", JArr (map JStr (list_or_empty connections)))] in
    response <- _request "POST" "/workspace/v2/policy" (Some payload) None None ;;
    resp_json response.

Definition get_policy (name : string) : M json :=
  if String.eqb name "" then raise (ValidationError "name is required" (Some "name"))
  else
    try_except
      (response <- _request "GET" ("/workspace/v2/policy/" ++ name) None None None ;;
       resp_json response)
      (fun e =>
         if is_api_error e then
           all_policies <- policies ;;
           l <- py_iter all_policies ;;
           found <- find_by_name name l ;;
           match found with
           | Some p => ret p
           | None => raise (ResourceNotFoundError "Policy" name)
           end
         else raise e).

Definition delete_policy (name : string) : M bool :=
  if String.eqb name "" then raise (ValidationError "name is required" (Some "name"))
  else
    _ <- _request "DELETE" ("/workspace/v2/policy/" ++ name) None None None ;;
    ret true.

(** ** [get_file_download_url] and [file_download] *)

Definition get_file_download_url (file_id : string) : M json :=
  if String.eqb file_id "" then raise (ValidationError "file_id is required" (Some "file_id"))
  else
    response <- _request "GET" ("/workspace/v2/file-url/" ++ file_id) None None None ;;
    result <- resp_json response ;;
    ok <- py_get result "success" (JBool false) ;;
    if negb (py_truthy ok) then
      error_msg <- py_get result "err" (JStr "Unknown error") ;;
      raise (FileOperationError (MFmt "" error_msg) (Some file_id) (Some "get_download_url"))
    else py_getitem result "url".

(** [str(v)] of a JSON value that is not a string: [requests.get] converts a
    non-string URL with [str] before it validates it. *)
Variable json_str : json -> string.

Definition url_str (v : json) : string :=
  match v with JStr s => s | _ => json_str v end.

(** [dest.write_bytes(...)] succeeding; a failure raises [OSError]. *)
Variable fs_write : string -> bool.

(** [requests.get(download_url)], [raise_for_status()], then the write; only
    [RequestException]s are turned into a [FileOperationError]. *)
Definition file_download (file_name : string) (destination_path : option string) : M bool :=
  if String.eqb file_name "" then raise (ValidationError "file_name is required" (Some "file_name"))
  else
    download_url <- get_file_download_url file_name ;;
    let dest := if opt_truthy destination_path then opt_str destination_path else file_name in
    let fail := fun (e : request_exc) =>
      raise (FileOperationError (MText ("Failed to download file: " ++ str_request_exception e))
               (Some file_name) (Some "download")) in
    n <- send (mk_req "GET" (url_str download_url) None None None) ;;
    match n with
    | NetFailure e => fail e
    | NetResponse r =>
        if negb (response_ok r) then fail (RqHTTPError (status_code r))
        else if fs_write dest then ret true
        else raise OSError
    end.

(** ** [add_tool_to_mcp_trigger] *)

(** [str(n)] of a natural number. *)
Fixpoint nat_digits (fuel n : nat) (acc : string) : string :=
  match fuel with
  | O => acc
  | S fuel' =>
      let acc' := String (ascii_of_nat (48 + n mod 10)) acc in
      if (n <? 10)%nat then acc' else nat_digits fuel' (n / 10) acc'
  end.

Definition str_nat (n : nat) : string := nat_digits (S n) n "".

(** [str(uuid.uuid4())] *)
Variable uuid4 : string.

Definition new_tool_instance (instance_id : string) (name description connection command arguments : json)
  : json :=
  JObj [("instanceId", JStr instance_id); ("templateId", JStr instance_id);
        ("overrides", JObj [("name", name); ("description", description);
                            ("connection", connection); ("command", command);
                            ("argumentOverrides", arguments)])].

Definition add_tool_to_mcp_trigger (trigger_name : string) (tool_config : json) : M json :=
  if String.eqb trigger_name "" then
    raise (ValidationError "trigger_name is required" (Some "trigger_name"))
  else if negb (py_truthy tool_config) then
    raise (ValidationError "tool_config is required" (Some "tool_config"))
  else
    trigger <- get_trigger trigger_name ;;
    kind <- py_get trigger "kind" JNull ;;
    if negb (is_str kind "mcp") then raise (not_mcp_error trigger_name)
    else
      mcp_info <- py_get trigger "mcpTriggerInfo" (JObj []) ;;
      ti <- py_get mcp_info "toolInstances" (JArr []) ;;
      tool_instances <- py_iter ti ;;
      let instance_id := uuid4 in
      name <- py_get tool_config "name" (JStr ("tool_" ++ str_nat (length tool_instances + 1))) ;;
      description <- py_get tool_config "description" (JStr "") ;;
      connection <- py_get tool_config "connection" (JStr "") ;;
      command <- py_get tool_config "command" (JStr "") ;;
      arguments <- py_get tool_config "arguments" (JObj []) ;;
      update_mcp_trigger trigger_name None
        (Some (app tool_instances
                 [new_tool_instance instance_id name description connection command arguments])).

End Client.

(** ** [OpsBeaconClient.__init__]: the validated arguments and [api_domain.rstrip("/")] *)

Fixpoint drop_slashes (cs : list ascii) : list ascii :=
  match cs with
  | c :: r => if (c =? "/")%char then drop_slashes r else cs
  | [] => []
  end.

Definition rstrip_slash (s : string) : string :=
  string_of_list_ascii (rev (drop_slashes (rev (chars s)))).

(** [Ok d]: the client is built with [self.api_domain = d]. *)
Definition client_init (api_domain api_token : string) : outcome string :=
  if String.eqb api_domain "" then Raise (ValidationError "api_domain is required" (Some "api_domain"))
  else if String.eqb api_token "" then
    Raise (ValidationError "api_token is required" (Some "api_token"))
  else Ok (rstrip_slash api_domain).

(** ** Views of JSON values used to state properties *)

Definition is_obj (v : json) : bool := match v with JObj _ => true | _ => false end.

Definition name_field (t : json) : json :=
  match t with JObj fs => dict_get fs "name" JNull | _ => JNull end.

Definition kind_is (k : string) (t : json) : bool :=
  match t with JObj fs => is_str (dict_get fs "kind" JNull) k | _ => false end.

Definition overrides_of (t : json) : json :=
  match t with JObj fs => dict_get fs "overrides" (JObj []) | _ => JNull end.

Definition override_field (f : string) (t : json) : json :=
  match overrides_of t with JObj o => dict_get o f JNull | _ => JNull end.

Definition has_key (k : string) (fs : list (string * json)) : bool :=
  match assoc_lookup k fs with Some _ => true | None => false end.

(** * Fixtures and views used by the properties *)

Definition resp_429 (hs : list (string * string)) : response := mk_response 429 hs "" None.

Definition is_not_found (e : exc) : bool :=
  match e with ResourceNotFoundError _ _ => true | _ => false end.

Definition demo_trigger_x : json := JObj [("name", JStr "x"); ("kind", JStr "mcp")].

(** Direct GET of ["x"] answers 404; the list holds ["x"]. *)
Definition demo_net_fallback (rq : req) : net_result :=
  if String.eqb (rq_url rq) "https://api.example.com/workspace/v2/triggers" then
    NetResponse (mk_response 200 [] "" (Some (JObj [("triggers", JArr [JObj [("name", JStr "w")]; demo_trigger_x])])))
  else NetResponse (mk_response 404 [] "not found" None).

Definition structured_body (connection command : string) (args : list string) : json :=
  JObj [("command", JStr command); ("connection", JStr connection);
        ("arguments", JArr (map JStr args))].

Definition t1 : json := JObj [("name", JStr "t1"); ("kind", JStr "mcp")].

Definition t2 : json := JObj [("name", JStr "t2"); ("kind", JStr "webHook")].

Definition demo_net_triggers (rq : req) : net_result :=
  NetResponse (mk_response 200 [] "" (Some (JObj [("triggers", JArr [t1; t2])]))).

Definition is_get (rq : req) : Prop := rq_method rq = "GET".

Definition only_gets {A} (m : M A) : Prop :=
  forall log, exists l, snd (m log) = app log l /\ Forall is_get l.

(** A tool instance is a dict whose [overrides], when present, is a dict. *)
Definition wf_tool (t : json) : bool :=
  match t with JObj fs => is_obj (dict_get fs "overrides" (JObj [])) | _ => false end.

Definition keeps_tool (tool_name : string) (t : json) : bool :=
  negb (is_str (override_field "name" t) tool_name).

Definition demo_tool (name command connection : string) : json :=
  JObj [("instanceId", JStr ("i-" ++ name)); ("templateId", JStr ("i-" ++ name));
        ("overrides", JObj [("name", JStr name); ("command", JStr command);
                            ("connection", JStr connection)])].

Definition demo_mcp_trigger : json :=
  JObj [("name", JStr "m"); ("kind", JStr "mcp"); ("description", JStr "d");
        ("commands", JArr [JStr "a"]); ("connections", JArr [JStr "x"]);
        ("policies", JArr [JStr "p1"]); ("triggerUrl", JStr "https://mcp");
        ("mcpTriggerInfo", JObj [("toolInstances", JArr [demo_tool "keep" "a" "x"])])].

(** Every request is answered with [demo_mcp_trigger]. *)
Definition demo_net_mcp (rq : req) : net_result :=
  NetResponse (mk_response 200 [] "" (Some demo_mcp_trigger)).

Definition demo_set_order (xs : list json) : list json := xs.

(** Every request is answered with status 200 and body text ["uploaded"]. *)
Definition demo_net_upload (rq : req) : net_result :=
  NetResponse (mk_response 200 [] "uploaded" None).

(** The truthy [overrides[f]] values of the instances, in order. *)
Definition override_vals (f : string) (ts : list json) : list json :=
  filter py_truthy (map (override_field f) ts).

Definition is_jstr (v : json) : bool := match v with JStr _ => true | _ => false end.

(** [overrides.command] and [overrides.connection] are strings or absent. *)
Definition str_override (f : string) (t : json) : bool :=
  match override_field f t with JNull | JStr _ => true | _ => false end.

Definition wf_create_tool (t : json) : bool :=
  wf_tool t && str_override "command" t && str_override "connection" t.

(** A [set_order]: de-duplicate a list of strings. *)
Definition demo_dedup (xs : list json) : list json :=
  map JStr (nodup string_dec (flat_map (fun v => match v with JStr s => [s] | _ => [] end) xs)).

(** A listed tool: a dict with a [name] key. *)
Definition named_tool (t : json) : bool :=
  match t with JObj fs => has_key "name" fs | _ => false end.

(** The tool to execute, in the words of the specification: the listed tool
    named [tool_name] when one is given and present, else the first one. *)
Definition select_tool (tool_name : option string) (ts : list json) : json :=
  match (if opt_truthy tool_name
         then find (fun t => is_str (name_field t) (opt_str tool_name)) ts else None) with
  | Some t => t
  | None => hd JNull ts
  end.

Definition rpc_method_is (m : string) (rq : req) : bool :=
  match rq_json rq with Some (JObj fs) => is_str (dict_get fs "method" JNull) m | _ => false end.

(** An MCP server listing the tools ["a"] and ["b"] and answering every call
    with a [result]. *)
Definition demo_net_rpc (rq : req) : net_result :=
  NetResponse (mk_response 200 [] ""
    (Some (if rpc_method_is "tools/list" rq
           then JObj [("result", JObj [("tools", JArr [JObj [("name", JStr "a")];
                                                        JObj [("name", JStr "b")]])])]
           else JObj [("jsonrpc", JStr "2.0"); ("result", JObj [])]))).

(** A character [shlex] reads as part of an unquoted word. *)
Definition plain_char (c : ascii) : bool := negb (sh_whitespace c || sh_quote c || sh_escape c).

Definition plain_word (w : string) : bool := negb (String.eqb w "") && forallb plain_char (chars w).

Definition posts_to (url : string) (rq : req) : Prop := rq_method rq = "POST" /\ rq_url rq = url.

(** [m] appends at most [n] requests to the log, each satisfying [P]. *)
Definition sends_at_most {A} (P : req -> Prop) (n : nat) (m : M A) : Prop :=
  forall log, exists l, snd (m log) = app log l /\ (length l <= n)%nat /\ Forall P l.

(** * Properties *)

Example shlex_split_ex1 : shlex_split "--a b" = Ok ["--a"; "b"].
Proof. reflexivity. Qed.
Example shlex_split_ex2 : shlex_split " 'x y' z\ w  " = Ok ["x y"; "z w"].
Proof. reflexivity. Qed.
Example shlex_split_ex3 : shlex_split "a 'b" = Raise (ValueError "No closing quotation").
Proof. reflexivity. Qed.

(** ** Monad and transport lemmas *)

Lemma bind_step {A B} (m : M A) (k : A -> M B) log a log' :
  m log = (Ok a, log') -> bind m k log = k a log'.
Proof. intros H. unfold bind. rewrite H. reflexivity. Qed.

Lemma bind_fail {A B} (m : M A) (k : A -> M B) log e log' :
  m log = (Raise e, log') -> bind m k log = (Raise e, log').
Proof. intros H. unfold bind. rewrite H. reflexivity. Qed.

Lemma try_step {A} (m : M A) h log a log' :
  m log = (Ok a, log') -> try_except m h log = (Ok a, log').
Proof. intros H. unfold try_except. rewrite H. reflexivity. Qed.

Lemma try_fail {A} (m : M A) h log e log' :
  m log = (Raise e, log') -> try_except m h log = h e log'.
Proof. intros H. unfold try_except. rewrite H. reflexivity. Qed.

Lemma _request_eq api_domain net strx method endpoint j d f log :
  _request api_domain net strx method endpoint j d f log =
  (request_outcome strx (base_url api_domain ++ endpoint)
     (net (mk_req method (base_url api_domain ++ endpoint) j d f)),
   app log [mk_req method (base_url api_domain ++ endpoint) j d f]).
Proof.
  unfold _request, bind, send, lift.
  destruct (request_outcome _ _ _); reflexivity.
Qed.

(** Unfold the monad and the Python operations, keeping the client's methods folded. *)
Ltac mred :=
  cbv beta iota zeta delta [bind ret raise try_except lift py_get py_getitem py_iter
                            py_contains py_index0 py_setitem resp_json negb fst snd] in *.

Lemma eqb_neq_false (s t : string) : s <> t -> String.eqb s t = false.
Proof. apply String.eqb_neq. Qed.

(** ** C1: the [Retry-After] header of a 429 response *)

Lemma handle_429_numeric r v n :
  status_code r = 429%Z -> header_get "Retry-After" (resp_headers r) = Some v ->
  v <> "" -> py_int v = Some n ->
  _handle_response_error r = Some (RateLimitError (Some n)).
Proof.
  intros Hs Hh Hv Hn. unfold _handle_response_error. rewrite Hs. simpl.
  rewrite Hh, (eqb_neq_false _ _ Hv), Hn. reflexivity.
Qed.

Lemma handle_429_absent r :
  status_code r = 429%Z -> header_get "Retry-After" (resp_headers r) = None ->
  _handle_response_error r = Some (RateLimitError None).
Proof.
  intros Hs Hh. unfold _handle_response_error. rewrite Hs. simpl. rewrite Hh. reflexivity.
Qed.

(** C1 (code bug): a 429 response with [Retry-After: 60] gives a rate-limit
    error with [retry_after = 60] and one without the header gives
    [retry_after = None], but a non-numeric value such as [soon] makes
    [int(retry_after)] raise [ValueError], and [_request] raises it instead
    of a rate-limit error. *)
Theorem handle_response_error_retry_after_non_numeric :
  _handle_response_error (resp_429 [("Retry-After", "60")]) = Some (RateLimitError (Some 60%Z)) /\
  _handle_response_error (resp_429 []) = Some (RateLimitError None) /\
  _handle_response_error (resp_429 [("Retry-After", "soon")]) =
    Some (ValueError "invalid literal for int() with base 10: soon") /\
  (forall strx url, request_outcome strx url (NetResponse (resp_429 [("retry-after", "soon")])) =
    Raise (ValueError "invalid literal for int() with base 10: soon")).
Proof. repeat split; reflexivity. Qed.

(** ** C10: [get_mcp_trigger_url] *)

(** C10: for a non-empty name, [get_mcp_trigger_url] never raises
    resource-not-found; it returns [None] when [get_trigger] raises
    resource-not-found or the trigger's kind is not ["mcp"], and the trigger's
    [triggerUrl] (or [None] when absent) when the kind is ["mcp"]. *)
Theorem get_mcp_trigger_url_no_not_found api_domain net strx name log :
  name <> "" ->
  (match fst (get_mcp_trigger_url api_domain net strx name log) with
   | Raise e => is_not_found e = false
   | Ok _ => True
   end) /\
  (forall a b log', get_trigger api_domain net strx name log = (Raise (ResourceNotFoundError a b), log') ->
     get_mcp_trigger_url api_domain net strx name log = (Ok JNull, log')) /\
  (forall fs log', get_trigger api_domain net strx name log = (Ok (JObj fs), log') ->
     get_mcp_trigger_url api_domain net strx name log =
       (Ok (if is_str (dict_get fs "kind" JNull) "mcp" then dict_get fs "triggerUrl" JNull else JNull),
        log')).
Proof.
  intros Hn.
  unfold get_mcp_trigger_url. rewrite (eqb_neq_false _ _ Hn).
  split; [| split].
  - mred. destruct (get_trigger api_domain net strx name log) as [[t|e] log'].
    + destruct t; auto.
      destruct (is_str (dict_get fs "kind" JNull) "mcp"); auto.
    + destruct e; auto.
  - intros a b log' H. mred. rewrite H. reflexivity.
  - intros fs log' H. mred. rewrite H.
    destruct (is_str (dict_get fs "kind" JNull) "mcp"); reflexivity.
Qed.

Lemma get_mcp_trigger_url_no_not_found_witness :
  get_mcp_trigger_url "api.example.com" (fun _ => NetResponse (mk_response 200 [] ""
      (Some (JObj [("name", JStr "t"); ("kind", JStr "mcp"); ("triggerUrl", JStr "https://u")]))))
    (fun _ => "") "t" [] =
  (Ok (JStr "https://u"), [mk_req "GET" "https://api.example.com/workspace/v2/triggers/t" None None None]).
Proof.
  destruct (get_mcp_trigger_url_no_not_found "api.example.com" (fun _ => NetResponse (mk_response 200 [] ""
      (Some (JObj [("name", JStr "t"); ("kind", JStr "mcp"); ("triggerUrl", JStr "https://u")]))))
    (fun _ => "") "t" []) as [_ [_ H]].
  - discriminate.
  - exact (H [("name", JStr "t"); ("kind", JStr "mcp"); ("triggerUrl", JStr "https://u")]
             [mk_req "GET" "https://api.example.com/workspace/v2/triggers/t" None None None] eq_refl).
Defined.

(** ** C5: the fallback of [get_trigger] *)

Lemma find_by_name_eq name ts log :
  forallb is_obj ts = true ->
  find_by_name name ts log = (Ok (find (fun t => is_str (name_field t) name) ts), log).
Proof.
  induction ts as [|t r IH]; simpl; intros H; [reflexivity|].
  destruct t; try discriminate. simpl.
  unfold bind, ret. simpl.
  destruct (is_str (dict_get fs "name" JNull) name); [reflexivity|].
  apply IH. exact H.
Qed.

(** C5: for a non-empty name, [get_trigger] first GETs the trigger by name;
    when that GET fails with an API error (such as the 404 not-found error) it
    lists all triggers and scans them by name, returning the first entry with
    that name and raising resource-not-found ["Trigger"] [name] only when
    none matches. *)
Theorem get_trigger_fallback_scan api_domain net strx name log r1 rl bfs ts :
  name <> "" ->
  net (mk_req "GET" (base_url api_domain ++ ("/workspace/v2/triggers/" ++ name)) None None None)
    = NetResponse r1 ->
  response_ok r1 = false ->
  (exists e, _handle_response_error r1 = Some e /\ is_api_error e = true) ->
  net (mk_req "GET" (base_url api_domain ++ "/workspace/v2/triggers") None None None)
    = NetResponse rl ->
  response_ok rl = true -> json_body rl = Some (JObj bfs) ->
  dict_get bfs "triggers" (JArr []) = JArr ts ->
  forallb is_obj ts = true ->
  get_trigger api_domain net strx name log =
  (match find (fun t => is_str (name_field t) name) ts with
   | Some t => Ok t
   | None => Raise (ResourceNotFoundError "Trigger" name)
   end,
   app (app log [mk_req "GET" (base_url api_domain ++ ("/workspace/v2/triggers/" ++ name)) None None None])
     [mk_req "GET" (base_url api_domain ++ "/workspace/v2/triggers") None None None]).
Proof.
  intros Hn H1 Hok1 [e [He Hapi]] H2 Hok2 Hj Hts Hobj.
  unfold get_trigger. rewrite (eqb_neq_false _ _ Hn).
  erewrite try_fail.
  2:{ apply bind_fail. rewrite _request_eq, H1. simpl. rewrite Hok1. simpl. rewrite He. reflexivity. }
  rewrite Hapi.
  erewrite bind_step.
  2:{ unfold triggers. erewrite bind_step.
      2:{ rewrite _request_eq, H2. simpl. rewrite Hok2. reflexivity. }
      unfold resp_json. rewrite Hj. erewrite bind_step by reflexivity.
      erewrite bind_step by (simpl; rewrite Hts; reflexivity). reflexivity. }
  erewrite bind_step by reflexivity.
  erewrite bind_step by (apply find_by_name_eq; exact Hobj).
  destruct (find _ ts); reflexivity.
Qed.

Lemma get_trigger_fallback_scan_witness :
  get_trigger "api.example.com" demo_net_fallback (fun _ => "") "x" [] =
  (Ok demo_trigger_x,
   [mk_req "GET" "https://api.example.com/workspace/v2/triggers/x" None None None;
    mk_req "GET" "https://api.example.com/workspace/v2/triggers" None None None]).
Proof.
  exact (get_trigger_fallback_scan "api.example.com" demo_net_fallback (fun _ => "") "x" []
           (mk_response 404 [] "not found" None)
           (mk_response 200 [] "" (Some (JObj [("triggers", JArr [JObj [("name", JStr "w")]; demo_trigger_x])])))
           [("triggers", JArr [JObj [("name", JStr "w")]; demo_trigger_x])]
           [JObj [("name", JStr "w")]; demo_trigger_x]
           ltac:(discriminate) eq_refl eq_refl
           (ex_intro _ _ (conj eq_refl eq_refl)) eq_refl eq_refl eq_refl eq_refl eq_refl).
Defined.

(** ** C6: the arguments of [run] *)

Lemma opt_truthy_some s : s <> "" -> opt_truthy (Some s) = true.
Proof. intros H. simpl. rewrite (eqb_neq_false _ _ H). reflexivity. Qed.

Lemma run_body_structured conn cmd args log :
  conn <> "" -> cmd <> "" ->
  run_body None (Some conn) (Some cmd) args log =
  (match args with
   | ArgsStr a => if negb (String.eqb a "") then
                    match shlex_split a with
                    | Ok l => Ok (structured_body conn cmd l)
                    | Raise e => Raise e
                    end
                  else Ok (structured_body conn cmd [])
   | ArgsList l => Ok (structured_body conn cmd l)
   | ArgsNone => Ok (structured_body conn cmd [])
   end, log).
Proof.
  intros Hc Hm. unfold run_body. change (opt_truthy None) with false.
  rewrite (opt_truthy_some _ Hc), (opt_truthy_some _ Hm). simpl.
  destruct args as [|a|l]; mred; try reflexivity.
  destruct (String.eqb a ""); [reflexivity|].
  destruct (shlex_split a); reflexivity.
Qed.

(** C6: with [connection] and [command] given and no [command_text], [run]
    with a string [args] tokenizes it with [shlex.split] (["--a b"] becomes
    [["--a"; "b"]]), a token list is passed through unchanged, a string and
    the list it tokenizes to give the same run (the same request body
    and the same outcome), and absent [args] give an empty token list. *)
Theorem run_args_string_as_list api_domain net strx conn cmd S L log :
  conn <> "" -> cmd <> "" -> shlex_split S = Ok L ->
  run api_domain net strx None (Some conn) (Some cmd) (ArgsStr S) log =
    run api_domain net strx None (Some conn) (Some cmd) (ArgsList L) log /\
  run_body None (Some conn) (Some cmd) (ArgsStr S) log = (Ok (structured_body conn cmd L), log) /\
  run_body None (Some conn) (Some cmd) (ArgsList L) log = (Ok (structured_body conn cmd L), log) /\
  run_body None (Some conn) (Some cmd) ArgsNone log = (Ok (structured_body conn cmd []), log) /\
  snd (run api_domain net strx None (Some conn) (Some cmd) (ArgsList L) log) =
    app log [mk_req "POST" (base_url api_domain ++ "/trigger/v1/api")
               (Some (structured_body conn cmd L)) None None] /\
  shlex_split "--a b" = Ok ["--a"; "b"].
Proof.
  intros Hc Hm Hs.
  assert (Hstr : run_body None (Some conn) (Some cmd) (ArgsStr S) log =
                 (Ok (structured_body conn cmd L), log)).
  { rewrite run_body_structured by assumption.
    destruct (String.eqb S "") eqn:E; simpl.
    - apply String.eqb_eq in E. subst S. vm_compute in Hs. inversion Hs. reflexivity.
    - rewrite Hs. reflexivity. }
  assert (Hlist : run_body None (Some conn) (Some cmd) (ArgsList L) log =
                  (Ok (structured_body conn cmd L), log)).
  { rewrite run_body_structured by assumption. reflexivity. }
  split; [| split; [| split; [| split; [| split]]]].
  - unfold run. rewrite (bind_step _ _ _ _ _ Hstr), (bind_step _ _ _ _ _ Hlist). reflexivity.
  - exact Hstr.
  - exact Hlist.
  - rewrite run_body_structured by assumption. reflexivity.
  - unfold run. rewrite (bind_step _ _ _ _ _ Hlist). unfold try_except, bind at 1.
    rewrite _request_eq.
    destruct (request_outcome _ _ _) as [r|e]; mred.
    + destruct (json_body r); reflexivity.
    + destruct (is_api_error e); reflexivity.
  - reflexivity.
Qed.

Lemma run_args_string_as_list_witness :
  run "api.example.com" (fun _ => NetResponse (mk_response 200 [] "" (Some (JObj []))))
      (fun _ => "") None (Some "srv") (Some "check-disk") (ArgsStr "--a b") [] =
  run "api.example.com" (fun _ => NetResponse (mk_response 200 [] "" (Some (JObj []))))
      (fun _ => "") None (Some "srv") (Some "check-disk") (ArgsList ["--a"; "b"]) [].
Proof.
  exact (proj1 (run_args_string_as_list "api.example.com"
                  (fun _ => NetResponse (mk_response 200 [] "" (Some (JObj []))))
                  (fun _ => "") "srv" "check-disk" "--a b" ["--a"; "b"] []
                  ltac:(discriminate) ltac:(discriminate) eq_refl)).
Defined.

(** ** C8: [triggers(kind=K)] and [mcp_triggers] *)

Lemma filter_kind_eq k ts log :
  forallb is_obj ts = true ->
  filter_kind k ts log = (Ok (filter (kind_is k) ts), log).
Proof.
  induction ts as [|t r IH]; simpl; intros H; [reflexivity|].
  destruct t; try discriminate. mred. rewrite (IH H). reflexivity.
Qed.

(** C8 (corrected): [triggers(kind="")] does not filter: [if kind:] treats
    the empty string like [None], so all triggers come back, although none
    has kind [""]. *)
Lemma triggers_empty_kind_unfiltered :
  fst (triggers "api.example.com" demo_net_triggers (fun _ => "") (Some "") []) = Ok (JArr [t1; t2]) /\
  filter (kind_is "") [t1; t2] = [].
Proof. split; reflexivity. Qed.

(** C8 (amended): for a non-empty kind [K], [triggers(kind=K)] returns
    exactly the triggers of [triggers()] whose kind is [K], in their order;
    for an empty kind no filtering is applied: [triggers(kind="")] is
    [triggers()] on every input and returns the whole list;
    [mcp_triggers()] is [triggers(kind="mcp")]; on the list
    [[t1 (mcp); t2 (webHook)]] it returns [[t1]]. *)
Theorem triggers_kind_filter api_domain net strx K log ts log' :
  triggers api_domain net strx None log = (Ok (JArr ts), log') ->
  forallb is_obj ts = true ->
  (K <> "" ->
     triggers api_domain net strx (Some K) log = (Ok (JArr (filter (kind_is K) ts)), log')) /\
  (forall log0, triggers api_domain net strx (Some "") log0 = triggers api_domain net strx None log0) /\
  triggers api_domain net strx (Some "") log = (Ok (JArr ts), log') /\
  mcp_triggers api_domain net strx log = triggers api_domain net strx (Some "mcp") log /\
  fst (mcp_triggers "api.example.com" demo_net_triggers (fun _ => "") []) = Ok (JArr [t1]).
Proof.
  intros H Hobj.
  split; [| split; [intros log0; reflexivity | split; [exact H | split; reflexivity]]].
  intros HK.
  unfold triggers in *. mred.
  destruct (_request api_domain net strx "GET" "/workspace/v2/triggers" None None None log)
    as [[r|e] l1]; [|discriminate].
  destruct (json_body r) as [b|]; [|discriminate].
  destruct b; try discriminate.
  rewrite (opt_truthy_some _ HK).
  injection H as Hts Hl. rewrite Hts. subst l1.
  rewrite (filter_kind_eq _ _ _ Hobj). reflexivity.
Qed.

Lemma triggers_kind_filter_witness :
  triggers "api.example.com" demo_net_triggers (fun _ => "") (Some "mcp") [] =
  (Ok (JArr [t1]), [mk_req "GET" "https://api.example.com/workspace/v2/triggers" None None None]) /\
  triggers "api.example.com" demo_net_triggers (fun _ => "") (Some "") [] =
  (Ok (JArr [t1; t2]), [mk_req "GET" "https://api.example.com/workspace/v2/triggers" None None None]).
Proof.
  destruct (triggers_kind_filter "api.example.com" demo_net_triggers (fun _ => "") "mcp" []
              [t1; t2] [mk_req "GET" "https://api.example.com/workspace/v2/triggers" None None None]
              eq_refl eq_refl) as [H1 [_ [H3 _]]].
  split; [exact (H1 ltac:(discriminate)) | exact H3].
Defined.

(** ** Computations that send only GET requests *)

Lemma only_gets_ret {A} (a : A) : only_gets (ret a).
Proof. intros log. exists []. split; [rewrite app_nil_r; reflexivity | constructor]. Qed.

Lemma only_gets_raise {A} e : only_gets (@raise A e).
Proof. intros log. exists []. split; [rewrite app_nil_r; reflexivity | constructor]. Qed.

Lemma only_gets_bind {A B} (m : M A) (k : A -> M B) :
  only_gets m -> (forall a, only_gets (k a)) -> only_gets (bind m k).
Proof.
  intros Hm Hk log. unfold bind. destruct (Hm log) as [l1 [E1 F1]].
  destruct (m log) as [[a|e] log1]; simpl in E1; subst log1.
  - destruct (Hk a (app log l1)) as [l2 [E2 F2]]. exists (app l1 l2).
    split; [rewrite E2, app_assoc; reflexivity | apply Forall_app; auto].
  - exists l1. auto.
Qed.

Lemma only_gets_try {A} (m : M A) h :
  only_gets m -> (forall e, only_gets (h e)) -> only_gets (try_except m h).
Proof.
  intros Hm Hh log. unfold try_except. destruct (Hm log) as [l1 [E1 F1]].
  destruct (m log) as [[a|e] log1]; simpl in E1; subst log1.
  - exists l1. auto.
  - destruct (Hh e (app log l1)) as [l2 [E2 F2]]. exists (app l1 l2).
    split; [rewrite E2, app_assoc; reflexivity | apply Forall_app; auto].
Qed.

Lemma only_gets_lift {A} (o : outcome A) : only_gets (lift o).
Proof. destruct o; [apply only_gets_ret | apply only_gets_raise]. Qed.

Lemma only_gets_request api_domain net strx ep :
  only_gets (_request api_domain net strx "GET" ep None None None).
Proof.
  intros log. rewrite _request_eq. eexists. split; [reflexivity|].
  repeat constructor.
Qed.

Lemma only_gets_py_get v k d : only_gets (py_get v k d).
Proof. destruct v; first [apply only_gets_ret | apply only_gets_raise]. Qed.

Lemma only_gets_py_iter v : only_gets (py_iter v).
Proof. destruct v; first [apply only_gets_ret | apply only_gets_raise]. Qed.

Lemma only_gets_resp_json r : only_gets (resp_json r).
Proof. unfold resp_json. destruct (json_body r); [apply only_gets_ret | apply only_gets_raise]. Qed.

Create HintDb gets.
#[local] Hint Resolve only_gets_ret only_gets_raise only_gets_lift only_gets_request
  only_gets_py_get only_gets_py_iter only_gets_resp_json : gets.

Ltac gets :=
  repeat first
    [ progress (auto with gets)
    | apply only_gets_bind; [| intros ?]
    | apply only_gets_try; [| intros ?]
    | match goal with
      | |- only_gets (if ?b then _ else _) => destruct b
      | |- only_gets (match ?x with _ => _ end) => destruct x
      end ].

Lemma only_gets_filter_kind k ts : only_gets (filter_kind k ts).
Proof. induction ts; simpl; gets. Qed.

Lemma only_gets_find_by_name name ts : only_gets (find_by_name name ts).
Proof. induction ts; simpl; gets. Qed.

#[local] Hint Resolve only_gets_filter_kind only_gets_find_by_name : gets.

Lemma only_gets_triggers api_domain net strx kind : only_gets (triggers api_domain net strx kind).
Proof. unfold triggers. gets. Qed.

#[local] Hint Resolve only_gets_triggers : gets.

Lemma only_gets_get_trigger api_domain net strx name :
  only_gets (get_trigger api_domain net strx name).
Proof. unfold get_trigger. destruct (String.eqb name ""); gets. Qed.

(** ** C4: [remove_tool_from_mcp_trigger] *)

Lemma filter_tools_eq tool_name ts log :
  forallb wf_tool ts = true ->
  filter_tools tool_name ts log = (Ok (filter (keeps_tool tool_name) ts), log).
Proof.
  induction ts as [|t r IH]; simpl; intros H; [reflexivity|].
  apply andb_prop in H as [Ht Hr].
  destruct t; try discriminate. simpl in Ht. mred.
  unfold keeps_tool, override_field, overrides_of.
  destruct (dict_get fs "overrides" (JObj [])); try discriminate.
  mred. rewrite (IH Hr). reflexivity.
Qed.

Lemma filter_length_all {A} (f : A -> bool) l :
  length (filter f l) = length l <-> forallb f l = true.
Proof.
  induction l as [|x r IH]; simpl; [tauto|].
  assert (length (filter f r) <= length r)%nat by apply filter_length_le.
  destruct (f x); simpl; [rewrite <- IH; lia | split; [lia | discriminate]].
Qed.

(** C4: for a trigger of kind mcp (dict-shaped tool instances, non-empty
    names), when no tool instance has [overrides.name = tool_name],
    [remove_tool_from_mcp_trigger] raises resource-not-found ["Tool"]
    [tool_name] and sends nothing after the GETs of [get_trigger]; when
    one does, it is [update_mcp_trigger] with exactly the instances whose
    [overrides.name] differs from [tool_name]. *)
Theorem remove_tool_from_mcp_trigger_not_found api_domain net strx so trigger_name tool_name
    log fs log1 info ts :
  trigger_name <> "" -> tool_name <> "" ->
  get_trigger api_domain net strx trigger_name log = (Ok (JObj fs), log1) ->
  dict_get fs "kind" JNull = JStr "mcp" ->
  dict_get fs "mcpTriggerInfo" (JObj []) = JObj info ->
  dict_get info "toolInstances" (JArr []) = JArr ts ->
  forallb wf_tool ts = true ->
  (forallb (keeps_tool tool_name) ts = true ->
   remove_tool_from_mcp_trigger api_domain net strx so trigger_name tool_name log =
     (Raise (ResourceNotFoundError "Tool" tool_name), log1) /\
   exists sent, log1 = app log sent /\ Forall is_get sent) /\
  (existsb (fun t => is_str (override_field "name" t) tool_name) ts = true ->
   remove_tool_from_mcp_trigger api_domain net strx so trigger_name tool_name log =
     update_mcp_trigger api_domain net strx so trigger_name None
       (Some (filter (keeps_tool tool_name) ts)) log1).
Proof.
  intros Htn Hn Hget Hk Hinfo Hts Hwf.
  assert (Hrun : remove_tool_from_mcp_trigger api_domain net strx so trigger_name tool_name log =
                 (if Nat.eqb (length (filter (keeps_tool tool_name) ts)) (length ts)
                  then (Raise (ResourceNotFoundError "Tool" tool_name), log1)
                  else update_mcp_trigger api_domain net strx so trigger_name None
                         (Some (filter (keeps_tool tool_name) ts)) log1)).
  { unfold remove_tool_from_mcp_trigger.
    rewrite (eqb_neq_false _ _ Htn), (eqb_neq_false _ _ Hn).
    mred. rewrite Hget. rewrite Hk. change (is_str (JStr "mcp") "mcp") with true. mred.
    rewrite Hinfo. mred. rewrite Hts. mred.
    rewrite (filter_tools_eq _ _ _ Hwf).
    destruct (Nat.eqb _ _); reflexivity. }
  split.
  - intros Hall. split.
    + rewrite Hrun. apply filter_length_all in Hall. rewrite Hall, Nat.eqb_refl. reflexivity.
    + destruct (only_gets_get_trigger api_domain net strx trigger_name log) as [l [E F]].
      rewrite Hget in E. simpl in E. eauto.
  - intros Hex. rewrite Hrun.
    assert (Hne : forallb (keeps_tool tool_name) ts = false).
    { apply Bool.not_true_iff_false. intros Hall.
      rewrite forallb_forall in Hall. apply existsb_exists in Hex as [t [Hin Ht]].
      specialize (Hall t Hin). unfold keeps_tool in Hall. rewrite Ht in Hall. discriminate. }
    destruct (Nat.eqb _ _) eqn:E; [|reflexivity].
    apply Nat.eqb_eq, filter_length_all in E. congruence.
Qed.

Lemma remove_tool_from_mcp_trigger_not_found_witness :
  remove_tool_from_mcp_trigger "api.example.com" demo_net_mcp (fun _ => "") demo_set_order
    "m" "ghost" [] =
  (Raise (ResourceNotFoundError "Tool" "ghost"),
   [mk_req "GET" "https://api.example.com/workspace/v2/triggers/m" None None None]).
Proof.
  exact (proj1 (proj1 (remove_tool_from_mcp_trigger_not_found "api.example.com" demo_net_mcp
     (fun _ => "") demo_set_order "m" "ghost" []
     [("name", JStr "m"); ("kind", JStr "mcp"); ("description", JStr "d");
      ("commands", JArr [JStr "a"]); ("connections", JArr [JStr "x"]);
      ("policies", JArr [JStr "p1"]); ("triggerUrl", JStr "https://mcp");
      ("mcpTriggerInfo", JObj [("toolInstances", JArr [demo_tool "keep" "a" "x"])])]
     [mk_req "GET" "https://api.example.com/workspace/v2/triggers/m" None None None]
     [("toolInstances", JArr [demo_tool "keep" "a" "x"])]
     [demo_tool "keep" "a" "x"]
     ltac:(discriminate) ltac:(discriminate) eq_refl eq_refl eq_refl eq_refl eq_refl) eq_refl)).
Defined.

(** ** C2: the body [update_mcp_trigger] sends *)

Lemma collect_overrides_log ts c n log :
  snd (collect_overrides ts c n log) = log.
Proof.
  revert c n. induction ts as [|t r IH]; intros c n; simpl; [reflexivity|].
  mred. destruct t; try reflexivity.
  destruct (dict_get fs "overrides" (JObj [])); try reflexivity.
  mred.
  destruct (py_truthy (dict_get fs0 "command" JNull)); mred;
    [destruct (assoc_lookup "command" fs0); mred; [|reflexivity] |];
    (destruct (py_truthy (dict_get fs0 "connection" JNull)); mred;
      [destruct (assoc_lookup "connection" fs0); mred; [apply IH|reflexivity] | apply IH]).
Qed.

Lemma app_single_neq {A} (l : list A) x : l <> app l [x].
Proof. intros H. apply (f_equal (@length A)) in H. rewrite length_app in H. simpl in H. lia. Qed.

Lemma assoc_set_lookup k v fs :
  assoc_lookup k (assoc_set k v fs) = Some v /\
  (forall k', k' <> k -> assoc_lookup k' (assoc_set k v fs) = assoc_lookup k' fs).
Proof.
  induction fs as [|[k0 v0] r [IH1 IH2]]; simpl.
  - rewrite String.eqb_refl. split; [reflexivity|].
    intros k' Hk. rewrite (eqb_neq_false _ _ Hk). reflexivity.
  - destruct (String.eqb k k0) eqn:E; simpl.
    + apply String.eqb_eq in E. subst k0. rewrite String.eqb_refl. split; [reflexivity|].
      intros k' Hk. rewrite (eqb_neq_false _ _ Hk). reflexivity.
    + rewrite E. split; [exact IH1|].
      intros k' Hk. destruct (String.eqb k' k0); [reflexivity | apply IH2; exact Hk].
Qed.

(** C2 (corrected): [update_mcp_trigger] with neither a description nor tool
    instances sends back a body without the stored [policies]: the PUT body
    is built from a fixed set of keys. *)
Lemma update_mcp_trigger_drops_policies :
  (match demo_mcp_trigger with JObj fs => dict_get fs "policies" JNull | _ => JNull end)
    = JArr [JStr "p1"] /\
  exists rq body,
    snd (update_mcp_trigger "api.example.com" demo_net_mcp (fun _ => "") demo_set_order
           "m" None None []) =
      [mk_req "GET" "https://api.example.com/workspace/v2/triggers/m" None None None; rq] /\
    rq_method rq = "PUT" /\ rq_json rq = Some (JObj body) /\ assoc_lookup "policies" body = None.
Proof.
  split; [reflexivity|].
  do 2 eexists. split; [vm_compute; reflexivity|].
  split; [reflexivity|]. split; reflexivity.
Qed.

(** C2 (amended): when [get_trigger] returns the stored trigger [fs] and
    [update_mcp_trigger] sends its request, that request is a PUT to the
    trigger whose body has exactly the keys name, kind, description,
    commands, connections and mcpTriggerInfo: kind ["mcp"]; the description
    argument, else the stored description (default [""]); without tool
    instances the stored commands, connections and mcpTriggerInfo (defaults
    [[]], [[]], [{}]); with tool instances [ts], commands and connections
    recomputed from [ts] and the stored mcpTriggerInfo with [toolInstances]
    set to [ts], its other keys kept.  Stored keys outside this set, such as
    policies, are not sent. *)
Theorem update_mcp_trigger_put_body api_domain net strx so name description tool_instances
    log fs log1 rq :
  get_trigger api_domain net strx name log = (Ok (JObj fs), log1) ->
  snd (update_mcp_trigger api_domain net strx so name description tool_instances log)
    = app log1 [rq] ->
  rq_method rq = "PUT" /\
  rq_url rq = base_url api_domain ++ ("/workspace/v2/triggers/" ++ name) /\
  exists body, rq_json rq = Some (JObj body) /\
    map fst body = ["name"; "kind"; "description"; "commands"; "connections"; "mcpTriggerInfo"] /\
    assoc_lookup "name" body = Some (JStr name) /\
    assoc_lookup "kind" body = Some (JStr "mcp") /\
    assoc_lookup "description" body =
      Some (match description with Some d => JStr d | None => dict_get fs "description" (JStr "") end) /\
    match tool_instances with
    | None =>
        assoc_lookup "commands" body = Some (dict_get fs "commands" (JArr [])) /\
        assoc_lookup "connections" body = Some (dict_get fs "connections" (JArr [])) /\
        assoc_lookup "mcpTriggerInfo" body = Some (dict_get fs "mcpTriggerInfo" (JObj []))
    | Some ts =>
        (exists cc, collect_overrides ts [] [] log1 = (Ok cc, log1) /\
           assoc_lookup "commands" body = Some (JArr (so (fst cc))) /\
           assoc_lookup "connections" body = Some (JArr (so (snd cc)))) /\
        exists info info',
          dict_get fs "mcpTriggerInfo" (JObj []) = JObj info /\
          assoc_lookup "mcpTriggerInfo" body = Some (JObj info') /\
          assoc_lookup "toolInstances" info' = Some (JArr ts) /\
          (forall k, k <> "toolInstances" -> assoc_lookup k info' = assoc_lookup k info)
    end.
Proof.
  intros Hget Hsnd.
  unfold update_mcp_trigger in Hsnd.
  destruct (String.eqb name "") eqn:En.
  { unfold get_trigger in Hget. rewrite En in Hget. discriminate. }
  mred. rewrite Hget in Hsnd.
  destruct (is_str (dict_get fs "kind" JNull) "mcp"); mred;
    [| exfalso; exact (app_single_neq _ _ Hsnd)].
  destruct tool_instances as [ts|].
  - pose proof (collect_overrides_log ts [] [] log1) as Hl.
    destruct (collect_overrides ts [] [] log1) as [[cc|e] l2] eqn:Ec; simpl in Hl; subst l2; mred;
      [| exfalso; exact (app_single_neq _ _ (eq_sym Hl))].
    unfold py_list_set in Hsnd. destruct cc as [c1 c2].
    destruct (forallb hashable c1); mred; [| exfalso; exact (app_single_neq _ _ Hsnd)].
    destruct (forallb hashable c2); mred; [| exfalso; exact (app_single_neq _ _ Hsnd)].
    destruct (dict_get fs "mcpTriggerInfo" (JObj [])) eqn:Ei; mred;
      try (exfalso; destruct description; mred; exact (app_single_neq _ _ Hsnd)).
    assert (Hrq : rq = mk_req "PUT" (base_url api_domain ++ ("/workspace/v2/triggers/" ++ name))
              (Some (JObj [("name", JStr name); ("kind", JStr "mcp");
                           ("description", match description with Some d => JStr d
                                           | None => dict_get fs "description" (JStr "") end);
                           ("commands", JArr (so c1)); ("connections", JArr (so c2));
                           ("mcpTriggerInfo", JObj (assoc_set "toolInstances" (JArr ts) fs0))]))
              None None).
    { destruct description; mred; rewrite _request_eq in Hsnd;
        destruct (request_outcome _ _ _) as [r|e]; mred;
        try destruct (json_body r); try destruct (is_api_error e); mred;
        apply app_inv_head in Hsnd; injection Hsnd as Heq; symmetry; exact Heq. }
    subst rq. simpl. split; [reflexivity|]. split; [reflexivity|].
    eexists. split; [reflexivity|]. simpl.
    do 4 (split; [reflexivity|]).
    split; [exists (c1, c2); split; [reflexivity | split; reflexivity]|].
    destruct (assoc_set_lookup "toolInstances" (JArr ts) fs0) as [H1 H2].
    exists fs0, (assoc_set "toolInstances" (JArr ts) fs0). auto.
  - assert (Hrq : rq = mk_req "PUT" (base_url api_domain ++ ("/workspace/v2/triggers/" ++ name))
              (Some (JObj [("name", JStr name); ("kind", JStr "mcp");
                           ("description", match description with Some d => JStr d
                                           | None => dict_get fs "description" (JStr "") end);
                           ("commands", dict_get fs "commands" (JArr []));
                           ("connections", dict_get fs "connections" (JArr []));
                           ("mcpTriggerInfo", dict_get fs "mcpTriggerInfo" (JObj []))]))
              None None).
    { destruct description; mred; rewrite _request_eq in Hsnd;
        destruct (request_outcome _ _ _) as [r|e]; mred;
        try destruct (json_body r); try destruct (is_api_error e); mred;
        apply app_inv_head in Hsnd; injection Hsnd as Heq; symmetry; exact Heq. }
    subst rq. simpl. split; [reflexivity|]. split; [reflexivity|].
    eexists. split; [reflexivity|]. simpl. auto 10.
Qed.

Lemma update_mcp_trigger_put_body_witness :
  let rq := last (snd (update_mcp_trigger "api.example.com" demo_net_mcp (fun _ => "")
                         demo_set_order "m" (Some "new") (Some [demo_tool "t2" "b" "y"]) []))
                 (mk_req "" "" None None None) in
  rq_method rq = "PUT" /\
  exists body, rq_json rq = Some (JObj body) /\ assoc_lookup "policies" body = None /\
    assoc_lookup "commands" body = Some (JArr [JStr "b"]).
Proof.
  intros rq.
  destruct (update_mcp_trigger_put_body "api.example.com" demo_net_mcp (fun _ => "")
     demo_set_order "m" (Some "new") (Some [demo_tool "t2" "b" "y"]) []
     [("name", JStr "m"); ("kind", JStr "mcp"); ("description", JStr "d");
      ("commands", JArr [JStr "a"]); ("connections", JArr [JStr "x"]);
      ("policies", JArr [JStr "p1"]); ("triggerUrl", JStr "https://mcp");
      ("mcpTriggerInfo", JObj [("toolInstances", JArr [demo_tool "keep" "a" "x"])])]
     [mk_req "GET" "https://api.example.com/workspace/v2/triggers/m" None None None]
     rq ltac:(vm_compute; reflexivity) ltac:(vm_compute; reflexivity))
    as [Hm [_ [body [Hj _]]]].
  split; [exact Hm|]. exists body. split; [exact Hj|].
  unfold rq in Hj. vm_compute in Hj. injection Hj as <-. split; reflexivity.
Defined.

(** ** C3: the input modes of [file_upload] *)

(** C3 (counterexample): with both [file_content] and a missing
    [input_file] supplied, [file_upload] raises neither a validation nor a
    file-operation error; it uploads the content and issues the POST. *)
Lemma file_upload_both_inputs_uploads_content :
  file_upload "api.example.com" demo_net_upload (fun _ => "") (fun _ => false) (fun _ => false)
    (fun p => p) (Some "a,b") (Some "f.csv") (Some "/missing.csv") [] =
  (Ok "uploaded",
   [mk_req "POST" "https://api.example.com/workspace/v2/files" None
      (Some [("filename", "f.csv")]) (Some ("f.csv", FContent "a,b", "text/csv"))]).
Proof. vm_compute. reflexivity. Qed.

(** C3 (amended): [file_upload] raises a validation error before any
    request when neither input is supplied, and when content is supplied
    without a truthy [file_name]; with only an [input_file] that does not
    exist it raises a file-operation error tagged ["upload"] before any
    request; when content and a truthy [file_name] are supplied it sends
    exactly one POST of that content, whatever [input_file] is. *)
Theorem file_upload_input_modes api_domain net strx fe fr pn :
  (forall fn log, file_upload api_domain net strx fe fr pn None fn None log =
     (Raise (ValidationError "Either file_content or input_file must be provided" None), log)) /\
  (forall c fn inp log, opt_truthy fn = false ->
     file_upload api_domain net strx fe fr pn (Some c) fn inp log =
     (Raise (ValidationError "file_name is required when uploading content" (Some "file_name")), log)) /\
  (forall fn p log, fe p = false ->
     file_upload api_domain net strx fe fr pn None fn (Some p) log =
     (Raise (FileOperationError (MText ("File not found: " ++ p)) (Some p) (Some "upload")), log)) /\
  (forall c fn inp log, opt_truthy fn = true ->
     snd (file_upload api_domain net strx fe fr pn (Some c) fn inp log) =
     app log [mk_req "POST" (base_url api_domain ++ "/workspace/v2/files") None
                (Some [("filename", opt_str fn)]) (Some (opt_str fn, FContent c, "text/csv"))]).
Proof.
  split; [|split; [|split]].
  - intros fn log. reflexivity.
  - intros c fn inp log H. unfold file_upload, upload_parts. rewrite H. reflexivity.
  - intros fn p log H. unfold file_upload, upload_parts. rewrite H. reflexivity.
  - intros c fn inp log H. unfold file_upload, upload_parts. rewrite H. mred.
    rewrite _request_eq.
    destruct (request_outcome _ _ _) as [r|e]; mred; [reflexivity|].
    destruct (is_api_error e); reflexivity.
Qed.

Lemma file_upload_input_modes_witness :
  file_upload "api.example.com" demo_net_upload (fun _ => "") (fun _ => false) (fun _ => false)
    (fun p => p) (Some "a,b") None (Some "/missing.csv") [] =
  (Raise (ValidationError "file_name is required when uploading content" (Some "file_name")), []) /\
  file_upload "api.example.com" demo_net_upload (fun _ => "") (fun _ => false) (fun _ => false)
    (fun p => p) None None (Some "/missing.csv") [] =
  (Raise (FileOperationError (MText "File not found: /missing.csv") (Some "/missing.csv")
            (Some "upload")), []) /\
  snd (file_upload "api.example.com" demo_net_upload (fun _ => "") (fun _ => false) (fun _ => false)
    (fun p => p) (Some "a,b") (Some "f.csv") None []) =
  [mk_req "POST" "https://api.example.com/workspace/v2/files" None
     (Some [("filename", "f.csv")]) (Some ("f.csv", FContent "a,b", "text/csv"))].
Proof.
  destruct (file_upload_input_modes "api.example.com" demo_net_upload (fun _ => "")
              (fun _ => false) (fun _ => false) (fun p => p)) as [_ [H2 [H3 H4]]].
  split; [exact (H2 "a,b" None (Some "/missing.csv") [] eq_refl)|].
  split; [exact (H3 None "/missing.csv" [] eq_refl)|].
  exact (H4 "a,b" (Some "f.csv") None [] eq_refl).
Defined.

(** ** C7: [create_mcp_trigger] de-duplicates commands and connections *)

Lemma dict_get_truthy fs k x :
  py_truthy (dict_get fs k JNull) = true -> dict_get fs k JNull = x ->
  assoc_lookup k fs = Some x.
Proof. unfold dict_get. destruct (assoc_lookup k fs); [congruence | discriminate]. Qed.

Lemma collect_overrides_wf ts c n log :
  forallb wf_tool ts = true ->
  collect_overrides ts c n log =
  (Ok (app c (override_vals "command" ts), app n (override_vals "connection" ts)), log).
Proof.
  revert c n. induction ts as [|t r IH]; intros c n Hwf.
  - simpl. rewrite !app_nil_r. reflexivity.
  - simpl in Hwf. apply andb_true_iff in Hwf as [Ht Hr].
    destruct t as [| | | | |fs]; try discriminate Ht.
    unfold wf_tool in Ht. simpl. mred.
    destruct (dict_get fs "overrides" (JObj [])) as [| | | | |o] eqn:Eo; try discriminate Ht.
    assert (Hof : forall f, override_field f (JObj fs) = dict_get o f JNull)
      by (intros f; unfold override_field, overrides_of; rewrite Eo; reflexivity).
    unfold override_vals; cbn [map filter]; rewrite !Hof.
    destruct (py_truthy (dict_get o "command" JNull)) eqn:Ec;
    destruct (py_truthy (dict_get o "connection" JNull)) eqn:En; mred;
    repeat (match goal with
            | [ H : py_truthy (dict_get o ?k JNull) = true |- context [assoc_lookup ?k o] ] =>
                rewrite (dict_get_truthy o k _ H eq_refl)
            end); mred;
    rewrite (IH _ _ Hr); unfold override_vals; repeat rewrite <- app_assoc; reflexivity.
Qed.

Lemma wf_create_tool_hashable f ts :
  (f = "command" \/ f = "connection") ->
  forallb wf_create_tool ts = true ->
  forallb is_jstr (override_vals f ts) = true.
Proof.
  intros Hf. induction ts as [|t r IH]; intros H; [reflexivity|].
  simpl in H. apply andb_true_iff in H as [Ht Hr].
  unfold wf_create_tool, str_override in Ht.
  apply andb_true_iff in Ht as [Ht Hn]. apply andb_true_iff in Ht as [_ Hc].
  assert (Hv : match override_field f t with JNull | JStr _ => true | _ => false end = true)
    by (destruct Hf as [-> | ->]; assumption).
  specialize (IH Hr). unfold override_vals in *; simpl.
  destruct (override_field f t) as [| | |s| |]; try discriminate Hv; simpl; [exact IH|].
  destruct (negb (String.eqb s "")); exact IH.
Qed.

Lemma forallb_jstr_hashable xs : forallb is_jstr xs = true -> forallb hashable xs = true.
Proof.
  induction xs as [|x r IH]; simpl; [reflexivity|].
  destruct x; simpl; try discriminate; auto.
Qed.

Lemma wf_create_tool_wf ts : forallb wf_create_tool ts = true -> forallb wf_tool ts = true.
Proof.
  induction ts as [|t r IH]; simpl; [reflexivity|].
  intros H. apply andb_true_iff in H as [Ht Hr]. unfold wf_create_tool in Ht.
  apply andb_true_iff in Ht as [Ht _]. apply andb_true_iff in Ht as [Ht _].
  rewrite Ht, (IH Hr). reflexivity.
Qed.

Lemma override_vals_In f ts y :
  In y (override_vals f ts) <->
  exists t, In t ts /\ py_truthy (override_field f t) = true /\ override_field f t = y.
Proof.
  unfold override_vals. rewrite filter_In, in_map_iff. split.
  - intros [[t [<- Ht]] Hy]. exists t. auto.
  - intros [t [Ht [Hy <-]]]. split; [exists t; auto | exact Hy].
Qed.

Lemma demo_dedup_spec xs :
  forallb is_jstr xs = true ->
  NoDup (demo_dedup xs) /\ forall y, In y (demo_dedup xs) <-> In y xs.
Proof.
  intros H. unfold demo_dedup. split.
  - assert (Hm : forall l, NoDup l -> NoDup (map JStr l)).
    { induction 1 as [|a l Ha _ IH]; simpl; constructor; auto.
      rewrite in_map_iff. intros [b [E Hb]]. injection E as ->. contradiction. }
    apply Hm, NoDup_nodup.
  - intros y. rewrite in_map_iff. split.
    + intros [s [<- Hs]]. apply nodup_In, in_flat_map in Hs as [v [Hv Hs]].
      destruct v; simpl in Hs; try contradiction. destruct Hs as [<- | []]. exact Hv.
    + intros Hy. pose proof (proj1 (forallb_forall _ _) H y Hy) as Hj.
      destruct y as [| | |s| |]; try discriminate Hj.
      exists s. split; [reflexivity|]. apply nodup_In, in_flat_map. exists (JStr s). simpl; auto.
Qed.

(** C7: for tool instances whose [overrides.command] and
    [overrides.connection] are strings or absent, and a [set_order] that
    returns, for a list of strings, a duplicate-free list with the same
    members ([list(set(...))]), [create_mcp_trigger] sends one POST whose
    [commands] and [connections] are duplicate-free and hold exactly the
    truthy [overrides.command] (resp. [overrides.connection]) values of the
    instances; both are [list(set(.))] of the collected values. *)
Theorem create_mcp_trigger_dedup api_domain net strx so name description ts policies log :
  (forall xs, forallb is_jstr xs = true -> NoDup (so xs) /\ forall y, In y (so xs) <-> In y xs) ->
  name <> "" ->
  forallb wf_create_tool ts = true ->
  exists body,
    snd (create_mcp_trigger api_domain net strx so name description (Some ts) policies log) =
      app log [mk_req "POST" (base_url api_domain ++ "/workspace/v2/triggers")
                 (Some (JObj body)) None None] /\
    exists cmds conns,
      assoc_lookup "commands" body = Some (JArr cmds) /\
      assoc_lookup "connections" body = Some (JArr conns) /\
      cmds = so (override_vals "command" ts) /\ conns = so (override_vals "connection" ts) /\
      NoDup cmds /\ NoDup conns /\
      (forall y, In y cmds <->
         exists t, In t ts /\ py_truthy (override_field "command" t) = true /\
                   override_field "command" t = y) /\
      (forall y, In y conns <->
         exists t, In t ts /\ py_truthy (override_field "connection" t) = true /\
                   override_field "connection" t = y).
Proof.
  intros Hso Hname Hwf.
  pose proof (wf_create_tool_hashable "command" ts (or_introl eq_refl) Hwf) as Hc.
  pose proof (wf_create_tool_hashable "connection" ts (or_intror eq_refl) Hwf) as Hn.
  eexists. split.
  - unfold create_mcp_trigger.
    destruct (String.eqb name "") eqn:En; [apply String.eqb_eq in En; contradiction|].
    mred. unfold opt_list. rewrite (collect_overrides_wf ts [] [] log (wf_create_tool_wf ts Hwf)). mred. cbn [app].
    unfold py_list_set. rewrite (forallb_jstr_hashable _ Hc), (forallb_jstr_hashable _ Hn). mred.
    rewrite _request_eq.
    destruct (request_outcome _ _ _) as [r|e]; mred.
    + destruct (json_body r) as [j|]; mred; [|reflexivity].
      destruct j as [| | | | |fs]; mred; try reflexivity.
      destruct (py_truthy (dict_get fs "url" JNull)); mred; [reflexivity|].
      destruct (py_truthy (dict_get fs "err" JNull)); mred; [|reflexivity].
      destruct (assoc_lookup "err" fs); mred; try destruct (is_api_error _); reflexivity.
    + destruct (is_api_error e); reflexivity.
  - simpl. do 2 eexists. split; [reflexivity|]. split; [reflexivity|].
    split; [reflexivity|]. split; [reflexivity|].
    destruct (Hso _ Hc) as [Hc1 Hc2]. destruct (Hso _ Hn) as [Hn1 Hn2].
    split; [exact Hc1|]. split; [exact Hn1|].
    split; intros y; [rewrite Hc2 | rewrite Hn2]; apply override_vals_In.
Qed.

Lemma create_mcp_trigger_dedup_witness :
  exists body,
    snd (create_mcp_trigger "api.example.com" demo_net_upload (fun _ => "") demo_dedup "m" "d"
           (Some [demo_tool "t1" "a" "x"; demo_tool "t2" "b" "x"]) None []) =
      [mk_req "POST" "https://api.example.com/workspace/v2/triggers" (Some (JObj body)) None None] /\
    assoc_lookup "connections" body = Some (JArr [JStr "x"]) /\
    assoc_lookup "commands" body = Some (JArr [JStr "a"; JStr "b"]).
Proof.
  destruct (create_mcp_trigger_dedup "api.example.com" demo_net_upload (fun _ => "") demo_dedup
              "m" "d" [demo_tool "t1" "a" "x"; demo_tool "t2" "b" "x"] None []
              demo_dedup_spec ltac:(discriminate) eq_refl)
    as [body [Hrq [cmds [conns [Hcm [Hcn [Ec [En _]]]]]]]].
  exists body. split; [exact Hrq|].
  rewrite Hcm, Hcn, Ec, En. split; vm_compute; reflexivity.
Defined.

(** ** C9: tool selection and the success flag of [test_mcp_protocol] *)

Lemma mcp_post_eq net url body log :
  mcp_post net url body log =
  (Ok (post_outcome (net (mcp_req url body))), app log [mcp_req url body]).
Proof. reflexivity. Qed.

Lemma named_tool_truthy t : named_tool t = true -> py_truthy t = true.
Proof. destruct t as [| | | | |[|kv fs]]; simpl; try discriminate; auto. Qed.

Lemma named_tool_getitem t log :
  named_tool t = true -> py_getitem t "name" log = (Ok (name_field t), log).
Proof.
  destruct t as [| | | | |fs]; try discriminate. unfold named_tool, has_key. simpl.
  unfold py_getitem, dict_get, ret. destruct (assoc_lookup "name" fs); [reflexivity | discriminate].
Qed.

Lemma find_tool_eq n ts log :
  forallb named_tool ts = true ->
  find_tool n ts log =
  (Ok (match find (fun t => is_str (name_field t) n) ts with Some t => t | None => JNull end), log).
Proof.
  induction ts as [|t r IH]; intros H; [reflexivity|].
  simpl in H. apply andb_true_iff in H as [Ht Hr]. cbn [find_tool]. unfold bind.
  rewrite (named_tool_getitem t log Ht). mred. cbn [find].
  destruct (is_str (name_field t) n); [reflexivity | apply IH, Hr].
Qed.

Lemma find_named ts f t :
  forallb named_tool ts = true -> find f ts = Some t -> named_tool t = true.
Proof.
  intros H Hf. apply find_some in Hf as [Hi _].
  exact (proj1 (forallb_forall _ _) H t Hi).
Qed.

(** The tools/call step of [test_mcp_protocol] once the tool [t] is chosen. *)
Ltac c9_tail net url Hobj t Hs HL :=
  repeat (rewrite (named_tool_truthy t Hs); mred);
  destruct t as [| | | | |fs]; try discriminate Hs;
  unfold named_tool, has_key in Hs; cbn [hd name_field]; unfold dict_get;
  destruct (assoc_lookup "name" fs) as [x|] eqn:Ex; try discriminate Hs; mred;
  rewrite mcp_post_eq, HL;
  destruct (post_outcome (net (mcp_req url (exec_request x)))) as [e|ex] eqn:Ee; mred;
  [ eexists; split; [reflexivity|]; simpl; auto
  | let Ho := fresh "Ho" in
    pose proof (Hobj _ _ Ee) as Ho; destruct ex as [| | | | |efs]; try discriminate Ho; mred;
    eexists; split; [reflexivity|]; simpl; split; [reflexivity|]; split; [reflexivity|];
    split; [reflexivity|]; unfold has_key; split;
    [ intros H; exists efs; split; [reflexivity | exact H]
    | intros [efs' [E H]]; injection E as <-; exact H ] ].

(** C9: with a non-empty [mcp_url] and [api_token], and a server whose
    decoded answers are JSON objects: a transport failure of the initialize
    or the tools/list step returns at once with [success] false; an empty
    (falsy) tool list records the "No tools available to execute" marker
    with [success] false; a non-empty list of named tools leads to one
    tools/call request for [select_tool tool_name ts] with empty arguments,
    and [success] is true iff that call answers an object with a [result]
    key (a transport failure leaves it false). *)
Theorem test_mcp_protocol_selection net strx url token tool_name log :
  url <> "" -> token <> "" ->
  (forall rq ex, post_outcome (net rq) = inr ex -> is_obj ex = true) ->
  let init_rq := mcp_req url init_request in
  let list_rq := mcp_req url list_request in
  (forall e, post_outcome (net init_rq) = inl e ->
     test_mcp_protocol net strx url token tool_name log =
     (Ok (mk_results (error_obj strx e) JNull JNull false), app log [init_rq])) /\
  (forall init e, post_outcome (net init_rq) = inr init -> post_outcome (net list_rq) = inl e ->
     test_mcp_protocol net strx url token tool_name log =
     (Ok (mk_results init (error_obj strx e) JNull false), app log [init_rq; list_rq])) /\
  (forall init tr tls, post_outcome (net init_rq) = inr init -> post_outcome (net list_rq) = inr tr ->
     (forall l, tools_of tr l = (Ok tls, l)) -> py_truthy tls = false ->
     test_mcp_protocol net strx url token tool_name log =
     (Ok (mk_results init tr no_tools_marker false), app log [init_rq; list_rq])) /\
  (forall init tr ts, post_outcome (net init_rq) = inr init -> post_outcome (net list_rq) = inr tr ->
     (forall l, tools_of tr l = (Ok (JArr ts), l)) -> ts <> [] -> forallb named_tool ts = true ->
     let exec_rq := mcp_req url (exec_request (name_field (select_tool tool_name ts))) in
     exists r,
       test_mcp_protocol net strx url token tool_name log =
         (Ok r, app log [init_rq; list_rq; exec_rq]) /\
       initialize r = init /\ tools r = tr /\
       match post_outcome (net exec_rq) with
       | inl e => execution r = error_obj strx e /\ success r = false
       | inr ex => execution r = ex /\
           (success r = true <-> exists efs, ex = JObj efs /\ has_key "result" efs = true)
       end).
Proof.
  intros Hu Ht Hobj init_rq list_rq. subst init_rq list_rq.
  apply String.eqb_neq in Hu, Ht.
  unfold test_mcp_protocol. rewrite Hu, Ht. mred. rewrite mcp_post_eq.
  split; [|split; [|split]].
  - intros e He. rewrite He. reflexivity.
  - intros init e Hi Hl. rewrite Hi. mred. rewrite mcp_post_eq, Hl.
    rewrite <- app_assoc. reflexivity.
  - intros init tr tls Hi Hl Htl Hf. rewrite Hi. mred. rewrite mcp_post_eq, Hl. mred.
    rewrite Htl. mred. rewrite Hf. rewrite <- app_assoc. reflexivity.
  - intros init tr ts Hi Hl Htl Hne Hn. rewrite Hi. mred. rewrite mcp_post_eq, Hl. mred.
    rewrite Htl. mred.
    destruct ts as [|t0 ts']; [contradiction|]. cbn [py_truthy].
    assert (H0 : named_tool t0 = true) by (simpl in Hn; apply andb_true_iff in Hn; apply Hn).
    set (L := app (app log [mcp_req url init_request]) [mcp_req url list_request]).
    assert (HL : forall x, app L [x] = app log [mcp_req url init_request; mcp_req url list_request; x])
      by (intros x; unfold L; rewrite <- !app_assoc; reflexivity).
    unfold select_tool.
    destruct (opt_truthy tool_name) eqn:Eo.
    + rewrite (find_tool_eq _ _ L Hn). mred.
      destruct (find _ (t0 :: ts')) as [t|] eqn:Ef.
      * pose proof (find_named _ _ _ Hn Ef) as Hs. c9_tail net url Hobj t Hs HL.
      * change (py_truthy JNull) with false. mred. c9_tail net url Hobj t0 H0 HL.
    + change (py_truthy JNull) with false. mred. c9_tail net url Hobj t0 H0 HL.
Qed.

Lemma demo_net_rpc_obj rq ex : post_outcome (demo_net_rpc rq) = inr ex -> is_obj ex = true.
Proof.
  unfold demo_net_rpc, post_outcome. simpl.
  destruct (rpc_method_is "tools/list" rq); intros H; injection H as <-; reflexivity.
Qed.

Lemma test_mcp_protocol_selection_witness :
  exists r,
    test_mcp_protocol demo_net_rpc (fun _ => "") "https://mcp" "tok" (Some "b") [] =
      (Ok r, [mcp_req "https://mcp" init_request; mcp_req "https://mcp" list_request;
              mcp_req "https://mcp" (exec_request (JStr "b"))]) /\
    success r = true.
Proof.
  destruct (test_mcp_protocol_selection demo_net_rpc (fun _ => "") "https://mcp" "tok" (Some "b") []
              ltac:(discriminate) ltac:(discriminate) demo_net_rpc_obj) as [_ [_ [_ Hd]]].
  destruct (Hd (JObj [("jsonrpc", JStr "2.0"); ("result", JObj [])])
              (JObj [("result", JObj [("tools", JArr [JObj [("name", JStr "a")];
                                                      JObj [("name", JStr "b")]])])])
              [JObj [("name", JStr "a")]; JObj [("name", JStr "b")]]
              eq_refl eq_refl (fun l => eq_refl) ltac:(discriminate) eq_refl)
    as [r [Hr [_ [_ Hs]]]].
  exists r. split; [exact Hr|].
  cbn in Hs. destruct Hs as [_ Hs]. apply Hs. eexists. split; reflexivity.
Defined.

(** * Further properties of the client *)

(** ** [_request] and [_handle_response_error] *)

Lemma request_outcome_ok strx url r :
  response_ok r = true -> request_outcome strx url (NetResponse r) = Ok r.
Proof. intros H. unfold request_outcome. rewrite H. reflexivity. Qed.

Lemma response_not_ok_ge400 r : response_ok r = false -> (400 <= status_code r)%Z.
Proof.
  unfold response_ok. intros H. apply negb_false_iff, andb_prop in H as [H _].
  apply Z.leb_le. exact H.
Qed.

Lemma handle_response_error_some r :
  (400 <= status_code r)%Z -> exists e, _handle_response_error r = Some e.
Proof.
  intros H. unfold _handle_response_error. cbv zeta.
  destruct (Z.eqb (status_code r) 401); [eauto|].
  destruct (Z.eqb (status_code r) 403); [eauto|].
  destruct (Z.eqb (status_code r) 404); [eauto|].
  destruct (Z.eqb (status_code r) 429).
  - destruct (header_get _ _) as [v|]; [|eauto].
    destruct (negb _); [|eauto]. destruct (py_int v); eauto.
  - apply Z.leb_le in H. rewrite H. destruct (json_body r) as [[]|]; eauto.
Qed.

(** X1: [_request] sends exactly one request; it returns a response only
    when the network answered with a status outside 400..599, and every
    answer with a status in 400..599 makes it raise. *)
Theorem request_raises_on_error_status api_domain net strx mth ep j d f log :
  let rq := mk_req mth (base_url api_domain ++ ep) j d f in
  snd (_request api_domain net strx mth ep j d f log) = app log [rq] /\
  (forall r, fst (_request api_domain net strx mth ep j d f log) = Ok r ->
     net rq = NetResponse r /\ response_ok r = true) /\
  (forall r, net rq = NetResponse r -> response_ok r = false ->
     exists e, fst (_request api_domain net strx mth ep j d f log) = Raise e).
Proof.
  intros rq. rewrite _request_eq. fold rq. cbn [fst snd].
  split; [reflexivity | split].
  - intros r. unfold request_outcome. destruct (net rq) as [r'|e].
    + destruct (response_ok r') eqn:Hok; cbn [negb].
      * intros H. injection H as <-. auto.
      * destruct (handle_response_error_some r' (response_not_ok_ge400 _ Hok)) as [e He].
        rewrite He. discriminate.
    + destruct e; discriminate.
  - intros r Hn Hok. rewrite Hn. unfold request_outcome. rewrite Hok. cbn [negb].
    destruct (handle_response_error_some r (response_not_ok_ge400 _ Hok)) as [e He].
    rewrite He. eauto.
Qed.

(** X2: the exception [_request] raises for an error status: 401 and 403
    give an authentication error, 404 the API error "Resource not found"
    with status 404, and any other error status except 429 an API error
    carrying that status, whose message is the body's [err], else its
    [error], else the response text (also for a body that is not JSON);
    a JSON body that is not a dict makes it raise [AttributeError]. *)
Theorem request_outcome_error_status strx url r :
  response_ok r = false ->
  ((status_code r = 401 \/ status_code r = 403)%Z ->
     exists m, request_outcome strx url (NetResponse r) = Raise (AuthenticationError m)) /\
  (status_code r = 404%Z ->
     request_outcome strx url (NetResponse r) =
       Raise (APIError (MText "Resource not found") (Some 404%Z) (Some (text r)))) /\
  (~ In (status_code r) [401; 403; 404; 429]%Z ->
     request_outcome strx url (NetResponse r) =
       Raise (match json_body r with
              | Some (JObj fs) =>
                  APIError (MFmt "API error: " (dict_get fs "err" (dict_get fs "error" (JStr (text r)))))
                    (Some (status_code r)) (Some (text r))
              | Some _ => AttributeError
              | None => APIError (MFmt "API error: " (JStr (text r))) (Some (status_code r)) (Some (text r))
              end)).
Proof.
  intros Hok. pose proof (response_not_ok_ge400 _ Hok) as Hge.
  unfold request_outcome. rewrite Hok. cbn [negb].
  unfold _handle_response_error. cbv zeta.
  split; [|split].
  - intros [H|H]; rewrite H; cbn; eauto.
  - intros H. rewrite H. reflexivity.
  - intros Hn.
    rewrite (proj2 (Z.eqb_neq (status_code r) 401)) by (intro E; apply Hn; rewrite E; simpl; tauto).
    rewrite (proj2 (Z.eqb_neq (status_code r) 403)) by (intro E; apply Hn; rewrite E; simpl; tauto).
    rewrite (proj2 (Z.eqb_neq (status_code r) 404)) by (intro E; apply Hn; rewrite E; simpl; tauto).
    rewrite (proj2 (Z.eqb_neq (status_code r) 429)) by (intro E; apply Hn; rewrite E; simpl; tauto).
    rewrite (proj2 (Z.leb_le _ _) Hge).
    destruct (json_body r) as [[]|]; reflexivity.
Qed.

Lemma request_raises_on_error_status_witness :
  exists e, fst (_request "api.example.com" (fun _ => NetResponse (mk_response 500 [] "boom" None))
                  (fun _ => "") "GET" "/workspace/v2/commands" None None None []) = Raise e.
Proof.
  destruct (request_raises_on_error_status "api.example.com"
              (fun _ => NetResponse (mk_response 500 [] "boom" None)) (fun _ => "")
              "GET" "/workspace/v2/commands" None None None []) as [_ [_ H]].
  exact (H _ eq_refl eq_refl).
Defined.

Lemma request_outcome_error_status_witness :
  request_outcome (fun _ => "") "https://api.example.com/x"
    (NetResponse (mk_response 500 [] "t" (Some (JObj [("error", JStr "e"); ("err", JStr "bad")])))) =
  Raise (APIError (MFmt "API error: " (JStr "bad")) (Some 500%Z) (Some "t")).
Proof.
  destruct (request_outcome_error_status (fun _ => "") "https://api.example.com/x"
              (mk_response 500 [] "t" (Some (JObj [("error", JStr "e"); ("err", JStr "bad")]))) eq_refl)
    as [_ [_ H]].
  apply H. simpl. lia.
Defined.

(** ** The listing, add and delete methods *)

(** X3: each listing method sends one GET to its endpoint; on a successful
    response it returns the body's list under its key, [[]] when the key is
    absent, and raises [AttributeError] for a JSON body that is not a dict
    and a JSON decode error for a body that is not JSON. *)
Theorem list_endpoints_get_key api_domain net strx log r :
  Forall (fun '(m, ep, key) =>
     net (mk_req "GET" (base_url api_domain ++ ep) None None None) = NetResponse r ->
     response_ok r = true ->
     m log = (match json_body r with
              | Some (JObj fs) => Ok (dict_get fs key (JArr []))
              | Some _ => Raise AttributeError
              | None => Raise JSONDecodeError
              end, app log [mk_req "GET" (base_url api_domain ++ ep) None None None]))
    [(commands api_domain net strx, "/workspace/v2/commands", "commands");
     (connections api_domain net strx, "/workspace/v2/connections", "connections");
     (users api_domain net strx, "/workspace/v2/users", "users");
     (groups api_domain net strx, "/workspace/v2/policy/group", "groups");
     (policies api_domain net strx, "/workspace/v2/policy", "policies")].
Proof.
  repeat apply Forall_cons; try apply Forall_nil;
    intros Hn Hok; [unfold commands | unfold connections | unfold users | unfold groups | unfold policies];
    (erewrite bind_step; [| rewrite _request_eq, Hn, (request_outcome_ok _ _ _ Hok); reflexivity]);
    unfold resp_json; destruct (json_body r) as [[]|]; reflexivity.
Qed.

Lemma list_endpoints_get_key_witness :
  users "api.example.com" (fun _ => NetResponse (mk_response 200 [] "" (Some (JObj [])))) (fun _ => "") [] =
  (Ok (JArr []), [mk_req "GET" "https://api.example.com/workspace/v2/users" None None None]).
Proof.
  pose proof (list_endpoints_get_key "api.example.com"
                (fun _ => NetResponse (mk_response 200 [] "" (Some (JObj [])))) (fun _ => "") []
                (mk_response 200 [] "" (Some (JObj [])))) as H.
  exact (Forall_inv (Forall_inv_tail (Forall_inv_tail H)) eq_refl eq_refl).
Defined.

(** X4: [add_user] and [add_group] raise a validation error without any
    request for falsy data (such as [{}] or [None]); for truthy data each
    sends exactly one POST to its endpoint whose JSON body is the data
    itself. *)
Theorem add_user_group_body api_domain net strx v log :
  (py_truthy v = false ->
     add_user api_domain net strx v log = (Raise (ValidationError "User data is required" (Some "user")), log) /\
     add_group api_domain net strx v log = (Raise (ValidationError "Group data is required" (Some "group")), log)) /\
  (py_truthy v = true ->
     snd (add_user api_domain net strx v log) =
       app log [mk_req "POST" (base_url api_domain ++ "/workspace/v2/users") (Some v) None None] /\
     snd (add_group api_domain net strx v log) =
       app log [mk_req "POST" (base_url api_domain ++ "/workspace/v2/policy/group") (Some v) None None]).
Proof.
  unfold add_user, add_group. split; intros H; rewrite H; cbn [negb]; [split; reflexivity|].
  split; mred; rewrite _request_eq;
    (destruct (request_outcome _ _ _) as [r|e]; [destruct (json_body r)|]; reflexivity).
Qed.

Lemma add_user_group_body_witness :
  snd (add_user "api.example.com" demo_net_upload (fun _ => "") (JObj [("email", JStr "a@b")]) []) =
  [mk_req "POST" "https://api.example.com/workspace/v2/users" (Some (JObj [("email", JStr "a@b")])) None None].
Proof.
  exact (proj1 (proj2 (add_user_group_body "api.example.com" demo_net_upload (fun _ => "")
                         (JObj [("email", JStr "a@b")]) []) eq_refl)).
Defined.

(** X5: each delete method raises a validation error without any request
    for an empty id; otherwise it sends exactly one DELETE to its endpoint
    followed by the id, returns [True] when that request succeeds and
    raises the request's exception otherwise: it never returns [False]. *)
Theorem delete_methods api_domain net strx log :
  Forall (fun '(del, ep, msg, field) =>
     del "" log = (Raise (ValidationError msg (Some field)), log) /\
     forall id, id <> "" ->
       del id log =
         (match request_outcome strx (base_url api_domain ++ (ep ++ id))
                  (net (mk_req "DELETE" (base_url api_domain ++ (ep ++ id)) None None None)) with
          | Ok _ => Ok true
          | Raise e => Raise e
          end,
          app log [mk_req "DELETE" (base_url api_domain ++ (ep ++ id)) None None None]))
    [(delete_user api_domain net strx, "/workspace/v2/users/", "user_id is required", "user_id");
     (delete_group api_domain net strx, "/workspace/v2/policy/group/", "group_name is required", "group_name");
     (delete_trigger api_domain net strx, "/workspace/v2/triggers/", "name is required", "name");
     (delete_policy api_domain net strx, "/workspace/v2/policy/", "name is required", "name")].
Proof.
  repeat apply Forall_cons; try apply Forall_nil;
    (split; [reflexivity|]); intros id Hid;
    [unfold delete_user | unfold delete_group | unfold delete_trigger | unfold delete_policy];
    rewrite (eqb_neq_false _ _ Hid); mred; rewrite _request_eq;
    destruct (request_outcome _ _ _); reflexivity.
Qed.

Lemma delete_methods_witness :
  delete_user "api.example.com" demo_net_upload (fun _ => "") "u1" [] =
  (Ok true, [mk_req "DELETE" "https://api.example.com/workspace/v2/users/u1" None None None]).
Proof.
  pose proof (delete_methods "api.example.com" demo_net_upload (fun _ => "") []) as H.
  exact (proj2 (Forall_inv H) "u1" ltac:(discriminate)).
Defined.

(** ** Policies *)

Lemma list_or_empty_opt_list o : list_or_empty o = opt_list o.
Proof. destruct o as [[|]|]; reflexivity. Qed.

(** X6: [create_policy] raises a validation error without any request for
    an empty name; otherwise it sends one POST whose body has the name, the
    description and the command and connection lists, a missing list being
    sent as [[]]. *)
Theorem create_policy_payload api_domain net strx name description cmds conns log :
  (name = "" ->
     create_policy api_domain net strx name description cmds conns log =
       (Raise (ValidationError "name is required" (Some "name")), log)) /\
  (name <> "" ->
     snd (create_policy api_domain net strx name description cmds conns log) =
       app log [mk_req "POST" (base_url api_domain ++ "/workspace/v2/policy")
                  (Some (JObj [("name", JStr name); ("description", JStr description);
                               ("commands", JArr (map JStr (opt_list cmds)));
                               ("connections", JArr (map JStr (opt_list conns)))])) None None]).
Proof.
  unfold create_policy. split; intros H.
  - subst name. reflexivity.
  - rewrite (eqb_neq_false _ _ H). mred. rewrite _request_eq, !list_or_empty_opt_list.
    destruct (request_outcome _ _ _) as [r|e]; [destruct (json_body r)|]; reflexivity.
Qed.

Lemma create_policy_payload_witness :
  snd (create_policy "api.example.com" demo_net_upload (fun _ => "") "p" "" None (Some []) []) =
  [mk_req "POST" "https://api.example.com/workspace/v2/policy"
     (Some (JObj [("name", JStr "p"); ("description", JStr ""); ("commands", JArr []);
                  ("connections", JArr [])])) None None].
Proof.
  exact (proj2 (create_policy_payload "api.example.com" demo_net_upload (fun _ => "") "p" "" None (Some []) [])
           ltac:(discriminate)).
Defined.

(** X7: when the GET of a policy by name fails with an API error (such as
    the 404 not-found error), [get_policy] lists all policies and returns
    the first one with that name, raising resource-not-found ["Policy"]
    only when none matches. *)
Theorem get_policy_fallback_scan api_domain net strx name log r1 rl bfs ps :
  name <> "" ->
  net (mk_req "GET" (base_url api_domain ++ ("/workspace/v2/policy/" ++ name)) None None None)
    = NetResponse r1 ->
  response_ok r1 = false ->
  (exists e, _handle_response_error r1 = Some e /\ is_api_error e = true) ->
  net (mk_req "GET" (base_url api_domain ++ "/workspace/v2/policy") None None None)
    = NetResponse rl ->
  response_ok rl = true -> json_body rl = Some (JObj bfs) ->
  dict_get bfs "policies" (JArr []) = JArr ps ->
  forallb is_obj ps = true ->
  get_policy api_domain net strx name log =
  (match find (fun p => is_str (name_field p) name) ps with
   | Some p => Ok p
   | None => Raise (ResourceNotFoundError "Policy" name)
   end,
   app (app log [mk_req "GET" (base_url api_domain ++ ("/workspace/v2/policy/" ++ name)) None None None])
     [mk_req "GET" (base_url api_domain ++ "/workspace/v2/policy") None None None]).
Proof.
  intros Hn H1 Hok1 [e [He Hapi]] H2 Hok2 Hj Hps Hobj.
  unfold get_policy. rewrite (eqb_neq_false _ _ Hn).
  erewrite try_fail.
  2:{ apply bind_fail. rewrite _request_eq, H1. simpl. rewrite Hok1. simpl. rewrite He. reflexivity. }
  rewrite Hapi.
  erewrite bind_step.
  2:{ unfold policies. erewrite bind_step.
      2:{ rewrite _request_eq, H2, (request_outcome_ok _ _ _ Hok2). reflexivity. }
      unfold resp_json. rewrite Hj. erewrite bind_step by reflexivity.
      simpl. rewrite Hps. reflexivity. }
  erewrite bind_step by reflexivity.
  erewrite bind_step by (apply find_by_name_eq; exact Hobj).
  destruct (find _ ps); reflexivity.
Qed.

Lemma get_policy_fallback_scan_witness :
  get_policy "api.example.com"
    (fun rq => if String.eqb (rq_url rq) "https://api.example.com/workspace/v2/policy"
               then NetResponse (mk_response 200 [] "" (Some (JObj [("policies", JArr [JObj [("name", JStr "q")]])])))
               else NetResponse (mk_response 404 [] "not found" None))
    (fun _ => "") "p" [] =
  (Raise (ResourceNotFoundError "Policy" "p"),
   [mk_req "GET" "https://api.example.com/workspace/v2/policy/p" None None None;
    mk_req "GET" "https://api.example.com/workspace/v2/policy" None None None]).
Proof.
  exact (get_policy_fallback_scan "api.example.com"
           (fun rq => if String.eqb (rq_url rq) "https://api.example.com/workspace/v2/policy"
                      then NetResponse (mk_response 200 [] "" (Some (JObj [("policies", JArr [JObj [("name", JStr "q")]])])))
                      else NetResponse (mk_response 404 [] "not found" None))
           (fun _ => "") "p" []
           (mk_response 404 [] "not found" None)
           (mk_response 200 [] "" (Some (JObj [("policies", JArr [JObj [("name", JStr "q")]])])))
           [("policies", JArr [JObj [("name", JStr "q")]])] [JObj [("name", JStr "q")]]
           ltac:(discriminate) eq_refl eq_refl
           (ex_intro _ _ (conj eq_refl eq_refl)) eq_refl eq_refl eq_refl eq_refl eq_refl).
Defined.

(** X8: [get_trigger] and [get_policy] fall back to the full listing only
    for API errors: when the GET by name fails with any other exception
    (an authentication error for 401 or 403, a connection error, a
    timeout), that exception is raised after that single request. *)
Theorem get_by_name_no_fallback api_domain net strx name log e :
  name <> "" -> is_api_error e = false ->
  (request_outcome strx (base_url api_domain ++ ("/workspace/v2/triggers/" ++ name))
     (net (mk_req "GET" (base_url api_domain ++ ("/workspace/v2/triggers/" ++ name)) None None None)) = Raise e ->
   get_trigger api_domain net strx name log =
     (Raise e, app log [mk_req "GET" (base_url api_domain ++ ("/workspace/v2/triggers/" ++ name)) None None None])) /\
  (request_outcome strx (base_url api_domain ++ ("/workspace/v2/policy/" ++ name))
     (net (mk_req "GET" (base_url api_domain ++ ("/workspace/v2/policy/" ++ name)) None None None)) = Raise e ->
   get_policy api_domain net strx name log =
     (Raise e, app log [mk_req "GET" (base_url api_domain ++ ("/workspace/v2/policy/" ++ name)) None None None])).
Proof.
  intros Hn Hapi. unfold get_trigger, get_policy. rewrite (eqb_neq_false _ _ Hn).
  split; intros H; (erewrite try_fail; [| apply bind_fail; rewrite _request_eq, H; reflexivity]);
    rewrite Hapi; reflexivity.
Qed.

Lemma get_by_name_no_fallback_witness :
  get_trigger "api.example.com" (fun _ => NetResponse (mk_response 401 [] "" None)) (fun _ => "") "t" [] =
  (Raise (AuthenticationError "Authentication failed. Check your API token."),
   [mk_req "GET" "https://api.example.com/workspace/v2/triggers/t" None None None]).
Proof.
  exact (proj1 (get_by_name_no_fallback "api.example.com" (fun _ => NetResponse (mk_response 401 [] "" None))
                  (fun _ => "") "t" [] (AuthenticationError "Authentication failed. Check your API token.")
                  ltac:(discriminate) eq_refl) eq_refl).
Defined.

(** ** Files *)

(** X9: when the GET of [/workspace/v2/file-url/<id>] answers a dict,
    [get_file_download_url] returns its [url] only when its [success] is
    truthy (raising [KeyError] when [url] is absent); when [success] is
    falsy or absent it raises a file-operation error tagged
    ["get_download_url"] for that id, whose message is the body's [err] or
    "Unknown error". *)
Theorem get_file_download_url_result api_domain net strx file_id log r fs :
  file_id <> "" ->
  net (mk_req "GET" (base_url api_domain ++ ("/workspace/v2/file-url/" ++ file_id)) None None None)
    = NetResponse r ->
  response_ok r = true -> json_body r = Some (JObj fs) ->
  get_file_download_url api_domain net strx file_id log =
   (if py_truthy (dict_get fs "success" (JBool false)) then
      match assoc_lookup "url" fs with Some u => Ok u | None => Raise (KeyError "url") end
    else Raise (FileOperationError (MFmt "" (dict_get fs "err" (JStr "Unknown error")))
                  (Some file_id) (Some "get_download_url")),
    app log [mk_req "GET" (base_url api_domain ++ ("/workspace/v2/file-url/" ++ file_id)) None None None]).
Proof.
  intros Hid Hn Hok Hj. unfold get_file_download_url. rewrite (eqb_neq_false _ _ Hid).
  erewrite bind_step; [| rewrite _request_eq, Hn, (request_outcome_ok _ _ _ Hok); reflexivity].
  unfold resp_json. rewrite Hj. mred.
  destruct (py_truthy (dict_get fs "success" (JBool false))); cbn [negb]; [|reflexivity].
  destruct (assoc_lookup "url" fs); reflexivity.
Qed.

Lemma get_file_download_url_result_witness :
  get_file_download_url "api.example.com"
    (fun _ => NetResponse (mk_response 200 [] "" (Some (JObj [("success", JBool false)])))) (fun _ => "") "f" [] =
  (Raise (FileOperationError (MFmt "" (JStr "Unknown error")) (Some "f") (Some "get_download_url")),
   [mk_req "GET" "https://api.example.com/workspace/v2/file-url/f" None None None]).
Proof.
  exact (get_file_download_url_result "api.example.com"
           (fun _ => NetResponse (mk_response 200 [] "" (Some (JObj [("success", JBool false)])))) (fun _ => "")
           "f" [] (mk_response 200 [] "" (Some (JObj [("success", JBool false)]))) [("success", JBool false)]
           ltac:(discriminate) eq_refl eq_refl eq_refl).
Defined.

(** X10: [file_download] raises the exceptions of [get_file_download_url]
    unchanged and then sends nothing more; once it has the URL it sends one
    GET to that URL itself (not under the API domain), writes to
    [destination_path] when it is truthy and to [file_name] otherwise, and
    returns [True]; a network failure or an error status gives a
    file-operation error tagged ["download"], and a failed write raises
    the [OSError] unwrapped. *)
Theorem file_download_outcomes api_domain net strx js fw file_name dest log :
  file_name <> "" ->
  (forall e log1, get_file_download_url api_domain net strx file_name log = (Raise e, log1) ->
     file_download api_domain net strx js fw file_name dest log = (Raise e, log1)) /\
  (forall u log1, get_file_download_url api_domain net strx file_name log = (Ok u, log1) ->
     file_download api_domain net strx js fw file_name dest log =
       (match net (mk_req "GET" (url_str js u) None None None) with
        | NetResponse r =>
            if response_ok r then
              (if fw (if opt_truthy dest then opt_str dest else file_name) then Ok true else Raise OSError)
            else Raise (FileOperationError
                          (MText ("Failed to download file: " ++ strx (RqHTTPError (status_code r))))
                          (Some file_name) (Some "download"))
        | NetFailure e =>
            Raise (FileOperationError (MText ("Failed to download file: " ++ strx e))
                     (Some file_name) (Some "download"))
        end, app log1 [mk_req "GET" (url_str js u) None None None])).
Proof.
  intros Hn. unfold file_download. rewrite (eqb_neq_false _ _ Hn). split.
  - intros e log1 H. apply bind_fail. exact H.
  - intros u log1 H. rewrite (bind_step _ _ _ _ _ H). unfold bind, send.
    destruct (net _) as [r|e]; [|reflexivity].
    destruct (response_ok r); cbn [negb]; [|reflexivity].
    destruct (fw _); reflexivity.
Qed.

Lemma file_download_outcomes_witness :
  file_download "api.example.com"
    (fun rq => if String.eqb (rq_url rq) "https://files/f"
               then NetResponse (mk_response 200 [] "data" None)
               else NetResponse (mk_response 200 [] ""
                      (Some (JObj [("success", JBool true); ("url", JStr "https://files/f")]))))
    (fun _ => "") (fun _ => "") (fun _ => true) "f" (Some "out.csv") [] =
  (Ok true, [mk_req "GET" "https://api.example.com/workspace/v2/file-url/f" None None None;
             mk_req "GET" "https://files/f" None None None]).
Proof.
  exact (proj2 (file_download_outcomes "api.example.com"
                  (fun rq => if String.eqb (rq_url rq) "https://files/f"
                             then NetResponse (mk_response 200 [] "data" None)
                             else NetResponse (mk_response 200 [] ""
                                    (Some (JObj [("success", JBool true); ("url", JStr "https://files/f")]))))
                  (fun _ => "") (fun _ => "") (fun _ => true) "f" (Some "out.csv") [] ltac:(discriminate))
           (JStr "https://files/f") [mk_req "GET" "https://api.example.com/workspace/v2/file-url/f" None None None]
           eq_refl).
Defined.

(** ** [run] *)

(** X11: [run] raises before any request when neither [command_text] nor
    both [command] and [connection] are given, and when a string [args]
    cannot be split by [shlex] (its [ValueError], unwrapped); the failure of
    the POST it sends is wrapped into a command-execution error only for
    API errors, naming [command] when it is truthy and [command_text]
    otherwise, while other exceptions (connection errors, timeouts, a body
    that is not JSON) are raised unchanged. *)
Theorem run_error_handling api_domain net strx ct conn cmd args log :
  (opt_truthy ct = false -> opt_truthy cmd && opt_truthy conn = false ->
     run api_domain net strx ct conn cmd args log =
       (Raise (ValidationError "Either command_text or both connection and command are required" None), log)) /\
  (forall a e, opt_truthy ct = false -> opt_truthy cmd = true -> opt_truthy conn = true ->
     args = ArgsStr a -> a <> "" -> shlex_split a = Raise e ->
     run api_domain net strx ct conn cmd args log = (Raise e, log)) /\
  (forall body, run_body ct conn cmd args log = (Ok body, log) ->
     run api_domain net strx ct conn cmd args log =
       (match request_outcome strx (base_url api_domain ++ "/trigger/v1/api")
                (net (mk_req "POST" (base_url api_domain ++ "/trigger/v1/api") (Some body) None None)) with
        | Ok r => match json_body r with Some j => Ok j | None => Raise JSONDecodeError end
        | Raise e =>
            Raise (if is_api_error e
                   then CommandExecutionError (MExc "Command execution failed: " e)
                          (if opt_truthy cmd then cmd else ct) conn
                   else e)
        end,
        app log [mk_req "POST" (base_url api_domain ++ "/trigger/v1/api") (Some body) None None])).
Proof.
  split; [|split].
  - intros Hct Hcc. unfold run, run_body. rewrite Hct, Hcc. reflexivity.
  - intros a e Hct Hcmd Hconn -> Ha He. unfold run, run_body.
    rewrite Hct, Hcmd, Hconn, (eqb_neq_false _ _ Ha). cbn [andb negb]. mred.
    rewrite He. reflexivity.
  - intros body Hb. unfold run. rewrite (bind_step _ _ _ _ _ Hb). mred. rewrite _request_eq.
    destruct (request_outcome _ _ _) as [r|e]; [destruct (json_body r); reflexivity|].
    destruct (is_api_error e); reflexivity.
Qed.

Lemma run_error_handling_witness :
  run "api.example.com" (fun _ => NetFailure (RqConnection "refused")) (fun _ => "")
    (Some "srv: df") None None ArgsNone [] =
  (Raise (ConnectionError "Failed to connect to https://api.example.com/trigger/v1/api"),
   [mk_req "POST" "https://api.example.com/trigger/v1/api" (Some (JObj [("commandLine", JStr "srv: df")])) None None]).
Proof.
  exact (proj2 (proj2 (run_error_handling "api.example.com" (fun _ => NetFailure (RqConnection "refused"))
                         (fun _ => "") (Some "srv: df") None None ArgsNone []))
           (JObj [("commandLine", JStr "srv: df")]) eq_refl).
Defined.

(** ** [shlex.split] *)

Lemma chars_app s1 s2 : chars (s1 ++ s2) = (chars s1 ++ chars s2)%list.
Proof. induction s1 as [|c s IH]; simpl; [reflexivity|]. unfold chars in *. simpl. rewrite IH. reflexivity. Qed.

Lemma plain_char_false c :
  plain_char c = true -> sh_whitespace c = false /\ sh_quote c = false /\ sh_escape c = false.
Proof.
  unfold plain_char. destruct (sh_whitespace c), (sh_quote c), (sh_escape c); simpl; auto; discriminate.
Qed.

Lemma rt_loop_word cs inp esc tok q :
  forallb plain_char cs = true ->
  rt_loop (cs ++ inp)%list LWord esc tok q = rt_loop inp LWord esc (tok ++ cs)%list q.
Proof.
  revert tok. induction cs as [|c r IH]; intros tok H; simpl; [rewrite app_nil_r; reflexivity|].
  apply andb_prop in H as [Hc Hr]. destruct (plain_char_false c Hc) as [H1 [H2 H3]].
  rewrite H1, H2, H3, (IH _ Hr), <- app_assoc. reflexivity.
Qed.

(** Reading a plain word from the start state. *)
Lemma read_token_word c cs inp :
  forallb plain_char (c :: cs) = true ->
  read_token LSpace (c :: cs ++ inp)%list =
  match rt_loop inp LWord LSpace (c :: cs) false with
  | Raise e => Raise e
  | Ok (token, quoted, state', rest) =>
      Ok (if negb quoted && (match token with [] => true | _ => false end)
          then None else Some (string_of_list_ascii token), state', rest)
  end.
Proof.
  intros H. simpl in H. apply andb_prop in H as [Hc Hr].
  destruct (plain_char_false c Hc) as [H1 [H2 H3]].
  unfold read_token. simpl. rewrite H1, H3, H2, (rt_loop_word _ _ _ _ _ Hr). reflexivity.
Qed.

Lemma sh_loop_plain ws fuel :
  forallb plain_word ws = true -> (length ws < fuel)%nat ->
  sh_loop fuel LSpace (chars (String.concat " " ws)) = Ok ws.
Proof.
  revert fuel. induction ws as [|w r IH]; intros fuel Hw Hf.
  - destruct fuel; [lia|]. reflexivity.
  - simpl in Hw. apply andb_prop in Hw as [Hw Hr].
    apply andb_prop in Hw as [Hne Hpc]. destruct fuel as [|fuel]; [simpl in Hf; lia|].
    assert (Hcw : exists c cs, chars w = c :: cs).
    { destruct w as [|c s]; [discriminate|]. exists c, (list_ascii_of_string s). reflexivity. }
    destruct Hcw as [c [cs Hcw]]. rewrite Hcw in Hpc.
    assert (Hws : w = String c (string_of_list_ascii cs)).
    { rewrite <- (string_of_list_ascii_of_string w). fold (chars w). rewrite Hcw. reflexivity. }
    destruct r as [|w' r'].
    + simpl. rewrite Hcw, <- (app_nil_r cs), (read_token_word _ _ _ Hpc). simpl.
      destruct fuel; [simpl in Hf; lia|]. rewrite Hws. reflexivity.
    + change (String.concat " " (w :: w' :: r')) with (w ++ " " ++ String.concat " " (w' :: r')).
      remember (String.concat " " (w' :: r')) as rest eqn:Erest.
      rewrite !chars_app, Hcw. change (chars " ") with [" "%char].
      rewrite <- app_comm_cons. cbn [sh_loop]. rewrite (read_token_word _ _ _ Hpc). simpl.
      rewrite IH; [rewrite Hws; reflexivity | exact Hr | simpl in Hf |- *; lia].
Qed.

Lemma length_concat_plain ws :
  forallb plain_word ws = true -> (length ws <= length (chars (String.concat " " ws)))%nat.
Proof.
  induction ws as [|w r IH]; intros Hw; [simpl; lia|].
  simpl in Hw. apply andb_prop in Hw as [Hw Hr]. apply andb_prop in Hw as [Hne _].
  assert (Hl : (1 <= length (chars w))%nat) by (destruct w; [discriminate | simpl; lia]).
  destruct r as [|w' r'].
  - simpl. exact Hl.
  - change (String.concat " " (w :: w' :: r')) with (w ++ " " ++ String.concat " " (w' :: r')).
    rewrite !chars_app, !length_app. specialize (IH Hr). simpl in IH |- *. lia.
Qed.

(** X12: [shlex.split] of non-empty words without whitespace, quotes or
    backslashes, joined by single spaces, gives back exactly those words;
    in particular [shlex.split("")] is [[]]. *)
Theorem shlex_split_plain_words ws :
  forallb plain_word ws = true -> shlex_split (String.concat " " ws) = Ok ws.
Proof.
  intros H. unfold shlex_split. apply sh_loop_plain; [exact H|].
  pose proof (length_concat_plain ws H). lia.
Qed.

Lemma shlex_split_plain_words_witness :
  shlex_split "--verbose -n 3 /tmp/x" = Ok ["--verbose"; "-n"; "3"; "/tmp/x"].
Proof. exact (shlex_split_plain_words ["--verbose"; "-n"; "3"; "/tmp/x"] eq_refl). Defined.

Lemma rt_loop_unclosed q cs esc tok b :
  forallb (fun c => negb (c =? q)%char && negb (sh_escape c)) cs = true ->
  rt_loop cs (LQuote q) esc tok b = Raise (ValueError "No closing quotation").
Proof.
  revert tok b. induction cs as [|c r IH]; intros tok b H; [reflexivity|].
  simpl in H. apply andb_prop in H as [Hc Hr]. apply andb_prop in Hc as [Hq He].
  apply negb_true_iff in Hq, He. simpl. rewrite Hq, He. apply IH. exact Hr.
Qed.

(** X13: a string with an unmatched quote, that is plain characters, a
    single or double quote, then no further occurrence of that quote and no
    backslash, makes [shlex.split] raise [ValueError("No closing
    quotation")]. *)
Theorem shlex_split_unclosed_quote w q rest :
  forallb plain_char (chars w) = true -> sh_quote q = true ->
  forallb (fun c => negb (c =? q)%char && negb (sh_escape c)) (chars rest) = true ->
  shlex_split (w ++ String q rest) = Raise (ValueError "No closing quotation").
Proof.
  intros Hw Hq Hr.
  assert (Hqw : sh_whitespace q = false /\ sh_escape q = false).
  { unfold sh_quote in Hq. apply orb_prop in Hq as [E|E]; apply Ascii.eqb_eq in E; subst q; split; reflexivity. }
  destruct Hqw as [Hqs Hqe].
  unfold shlex_split. rewrite chars_app. simpl (chars (String q rest)).
  destruct (chars w) as [|c cs] eqn:Ecw.
  - simpl. unfold read_token. simpl. rewrite Hqs, Hqe, Hq. rewrite (rt_loop_unclosed _ _ _ _ _ Hr). reflexivity.
  - rewrite <- app_comm_cons. simpl. unfold read_token.
    simpl in Hw. apply andb_prop in Hw as [Hc Hcs].
    destruct (plain_char_false c Hc) as [H1 [H2 H3]].
    simpl. rewrite H1, H3, H2, (rt_loop_word _ _ _ _ _ Hcs). simpl.
    rewrite Hqs, Hq, (rt_loop_unclosed _ _ _ _ _ Hr). reflexivity.
Qed.

Lemma shlex_split_unclosed_quote_witness :
  shlex_split "--name='my file" = Raise (ValueError "No closing quotation").
Proof. exact (shlex_split_unclosed_quote "--name=" squote "my file" eq_refl eq_refl eq_refl). Defined.

(** ** The requests of [test_mcp_protocol] *)

Lemma sam_ret {A} P n (a : A) : sends_at_most P n (ret a).
Proof. intros log. exists []. rewrite app_nil_r. split; [reflexivity | split; [simpl; lia | constructor]]. Qed.

Lemma sam_raise {A} P n e : sends_at_most P n (@raise A e).
Proof. intros log. exists []. rewrite app_nil_r. split; [reflexivity | split; [simpl; lia | constructor]]. Qed.

Lemma sam_bind {A B} P a b (m : M A) (k : A -> M B) :
  sends_at_most P a m -> (forall x, sends_at_most P b (k x)) -> sends_at_most P (a + b) (bind m k).
Proof.
  intros Hm Hk log. destruct (Hm log) as [l1 [Hl1 [Hn1 Hf1]]]. unfold bind.
  destruct (m log) as [[x|e] log'] eqn:E; cbn [snd] in Hl1; subst log'.
  - destruct (Hk x (app log l1)) as [l2 [Hl2 [Hn2 Hf2]]].
    exists (app l1 l2). rewrite Hl2, app_assoc. split; [reflexivity|].
    rewrite length_app. split; [lia | apply Forall_app; auto].
  - exists l1. split; [reflexivity | split; [lia | exact Hf1]].
Qed.

Lemma sam_mcp_post net url body : sends_at_most (posts_to url) 1 (mcp_post net url body).
Proof.
  intros log. exists [mcp_req url body]. split; [reflexivity|].
  split; [simpl; lia | constructor; [split; reflexivity | constructor]].
Qed.

Ltac sam :=
  repeat match goal with
         | |- sends_at_most _ _ (bind (mcp_post _ _ _) _) =>
             apply (sam_bind _ 1); [apply sam_mcp_post | intros ?]
         | |- sends_at_most _ _ (bind _ _) => apply (sam_bind _ 0); [| intros ?]
         | |- sends_at_most _ _ (ret _) => apply sam_ret
         | |- sends_at_most _ _ (raise _) => apply sam_raise
         | |- sends_at_most _ _ (if ?b then _ else _) => destruct b
         | |- sends_at_most _ _ (match ?x with _ => _ end) => destruct x
         | |- sends_at_most _ _ (py_getitem _ _) => unfold py_getitem
         | |- sends_at_most _ _ (py_contains _ _) => unfold py_contains
         | |- sends_at_most _ _ (py_iter _) => unfold py_iter
         | |- sends_at_most _ _ (py_index0 _) => unfold py_index0
         end.

Lemma sam_tools_of P n (v : json) : sends_at_most P n (tools_of v).
Proof. unfold tools_of. sam. Qed.

Lemma sam_find_tool P n tool_name ts : sends_at_most P n (find_tool tool_name ts).
Proof. induction ts as [|t r IH]; simpl; sam; assumption. Qed.

(** X14: [test_mcp_protocol] sends nothing when [mcp_url] or [api_token] is
    empty, and otherwise at most three requests, each a POST to [mcp_url]
    itself: it never calls the OpsBeacon API under [api_domain]. *)
Theorem test_mcp_protocol_requests net strx url token tool_name :
  ((url = "" \/ token = "") ->
     forall log, snd (test_mcp_protocol net strx url token tool_name log) = log) /\
  sends_at_most (posts_to url) 3 (test_mcp_protocol net strx url token tool_name).
Proof.
  split.
  - intros [-> | ->] log; unfold test_mcp_protocol; [reflexivity|].
    destruct (String.eqb url ""); reflexivity.
  - unfold test_mcp_protocol. sam;
      solve [apply sam_tools_of | apply sam_find_tool].
Qed.

Lemma test_mcp_protocol_requests_witness :
  snd (test_mcp_protocol demo_net_rpc (fun _ => "") "https://mcp" "" None []) = [] /\
  exists l, snd (test_mcp_protocol demo_net_rpc (fun _ => "") "https://mcp" "tok" None []) = l /\
            (length l <= 3)%nat.
Proof.
  destruct (test_mcp_protocol_requests demo_net_rpc (fun _ => "") "https://mcp" "" None) as [H _].
  split; [exact (H (or_intror eq_refl) []) |].
  destruct (test_mcp_protocol_requests demo_net_rpc (fun _ => "") "https://mcp" "tok" None) as [_ H2].
  destruct (H2 []) as [l [Hl [Hn _]]]. exists l. split; [exact Hl | exact Hn].
Defined.

(** ** MCP triggers *)

(** X15: when [get_trigger] (which only sends GETs) returns a dict whose
    [kind] is not ["mcp"], [update_mcp_trigger], [remove_tool_from_mcp_trigger]
    and [add_tool_to_mcp_trigger] raise the MCP error "'<name>' is not an
    MCP trigger" without sending any further request. *)
Theorem non_mcp_trigger_unchanged api_domain net strx so uuid name fs log log1 :
  name <> "" ->
  get_trigger api_domain net strx name log = (Ok (JObj fs), log1) ->
  is_str (dict_get fs "kind" JNull) "mcp" = false ->
  (exists l, log1 = app log l /\ Forall is_get l) /\
  (forall d ti, update_mcp_trigger api_domain net strx so name d ti log = (Raise (not_mcp_error name), log1)) /\
  (forall tool_name, tool_name <> "" ->
     remove_tool_from_mcp_trigger api_domain net strx so name tool_name log = (Raise (not_mcp_error name), log1)) /\
  (forall cfg, py_truthy cfg = true ->
     add_tool_to_mcp_trigger api_domain net strx so uuid name cfg log = (Raise (not_mcp_error name), log1)).
Proof.
  intros Hn Hg Hk. split; [|split; [|split]].
  - destruct (only_gets_get_trigger api_domain net strx name log) as [l [Hl Hf]].
    rewrite Hg in Hl. exists l. split; [exact Hl | exact Hf].
  - intros d ti. unfold update_mcp_trigger. rewrite (eqb_neq_false _ _ Hn), (bind_step _ _ _ _ _ Hg).
    mred. rewrite Hk. reflexivity.
  - intros tool_name Ht. unfold remove_tool_from_mcp_trigger.
    rewrite (eqb_neq_false _ _ Hn), (eqb_neq_false _ _ Ht), (bind_step _ _ _ _ _ Hg).
    mred. rewrite Hk. reflexivity.
  - intros cfg Hc. unfold add_tool_to_mcp_trigger. rewrite (eqb_neq_false _ _ Hn), Hc. cbn [negb].
    rewrite (bind_step _ _ _ _ _ Hg). mred. rewrite Hk. reflexivity.
Qed.

Lemma non_mcp_trigger_unchanged_witness :
  update_mcp_trigger "api.example.com" demo_net_triggers (fun _ => "") demo_set_order "t2" None None [] =
  (Raise (not_mcp_error "t2"), [mk_req "GET" "https://api.example.com/workspace/v2/triggers/t2" None None None]).
Proof.
  exact (proj1 (proj2 (non_mcp_trigger_unchanged "api.example.com" demo_net_triggers (fun _ => "")
                         demo_set_order "u1" "t2" [("triggers", JArr [t1; t2])] []
                         [mk_req "GET" "https://api.example.com/workspace/v2/triggers/t2" None None None]
                         ltac:(discriminate) eq_refl eq_refl)) None None).
Defined.

(** X16: for an MCP trigger, [add_tool_to_mcp_trigger] calls
    [update_mcp_trigger] with the stored tool instances followed by one new
    instance whose [instanceId] and [templateId] are the same fresh UUID and
    whose overrides take [name], [description], [connection], [command] and
    [arguments] from the configuration, the name defaulting to
    ["tool_<n+1>"] for [n] stored instances, the next three to [""] and the
    arguments to [{}]. *)
Theorem add_tool_appends_instance api_domain net strx so uuid name cf log fs log1 info ts :
  name <> "" -> cf <> [] ->
  get_trigger api_domain net strx name log = (Ok (JObj fs), log1) ->
  is_str (dict_get fs "kind" JNull) "mcp" = true ->
  dict_get fs "mcpTriggerInfo" (JObj []) = JObj info ->
  dict_get info "toolInstances" (JArr []) = JArr ts ->
  add_tool_to_mcp_trigger api_domain net strx so uuid name (JObj cf) log =
  update_mcp_trigger api_domain net strx so name None
    (Some (app ts [new_tool_instance uuid
                     (dict_get cf "name" (JStr ("tool_" ++ str_nat (length ts + 1))))
                     (dict_get cf "description" (JStr "")) (dict_get cf "connection" (JStr ""))
                     (dict_get cf "command" (JStr "")) (dict_get cf "arguments" (JObj []))])) log1.
Proof.
  intros Hn Hcf Hg Hk Hi Hts. unfold add_tool_to_mcp_trigger.
  rewrite (eqb_neq_false _ _ Hn).
  destruct cf as [|kv cf']; [contradiction|]. cbn [py_truthy negb].
  rewrite (bind_step _ _ _ _ _ Hg). mred. rewrite Hk, Hi. mred. rewrite Hts. reflexivity.
Qed.

Lemma add_tool_appends_instance_witness :
  add_tool_to_mcp_trigger "api.example.com" demo_net_mcp (fun _ => "") demo_set_order "u1" "m"
    (JObj [("command", JStr "b")]) [] =
  update_mcp_trigger "api.example.com" demo_net_mcp (fun _ => "") demo_set_order "m" None
    (Some [demo_tool "keep" "a" "x";
           new_tool_instance "u1" (JStr "tool_2") (JStr "") (JStr "") (JStr "b") (JObj [])])
    [mk_req "GET" "https://api.example.com/workspace/v2/triggers/m" None None None].
Proof.
  exact (add_tool_appends_instance "api.example.com" demo_net_mcp (fun _ => "") demo_set_order "u1" "m"
           [("command", JStr "b")] []
           [("name", JStr "m"); ("kind", JStr "mcp"); ("description", JStr "d");
            ("commands", JArr [JStr "a"]); ("connections", JArr [JStr "x"]);
            ("policies", JArr [JStr "p1"]); ("triggerUrl", JStr "https://mcp");
            ("mcpTriggerInfo", JObj [("toolInstances", JArr [demo_tool "keep" "a" "x"])])]
           [mk_req "GET" "https://api.example.com/workspace/v2/triggers/m" None None None]
           [("toolInstances", JArr [demo_tool "keep" "a" "x"])] [demo_tool "keep" "a" "x"]
           ltac:(discriminate) ltac:(discriminate) eq_refl eq_refl eq_refl eq_refl).
Defined.

(** X17: [get_mcp_trigger_url] turns only resource-not-found into [None]:
    every other exception of [get_trigger] (a connection error, an
    authentication error, a timeout) is raised unchanged. *)
Theorem get_mcp_trigger_url_propagates api_domain net strx name log e log1 :
  name <> "" ->
  get_trigger api_domain net strx name log = (Raise e, log1) ->
  is_not_found e = false ->
  get_mcp_trigger_url api_domain net strx name log = (Raise e, log1).
Proof.
  intros Hn Hg He. unfold get_mcp_trigger_url. rewrite (eqb_neq_false _ _ Hn).
  mred. rewrite Hg. destruct e; try discriminate He; reflexivity.
Qed.

Lemma get_mcp_trigger_url_propagates_witness :
  get_mcp_trigger_url "api.example.com" (fun _ => NetFailure (RqConnection "refused")) (fun _ => "") "m" [] =
  (Raise (ConnectionError "Failed to connect to https://api.example.com/workspace/v2/triggers/m"),
   [mk_req "GET" "https://api.example.com/workspace/v2/triggers/m" None None None]).
Proof.
  exact (get_mcp_trigger_url_propagates "api.example.com" (fun _ => NetFailure (RqConnection "refused"))
           (fun _ => "") "m" []
           (ConnectionError "Failed to connect to https://api.example.com/workspace/v2/triggers/m")
           [mk_req "GET" "https://api.example.com/workspace/v2/triggers/m" None None None]
           ltac:(discriminate) eq_refl eq_refl).
Defined.

(** X18: for tool instances whose command and connection overrides are
    strings or absent, [create_mcp_trigger] sends one POST of the trigger;
    an API error of that request becomes the MCP error "Failed to create
    MCP trigger: ...", other exceptions are raised unchanged; on success a
    truthy [url] gives the success record (even when [err] is also set), else
    a truthy [err] raises an MCP error with that message, else the response
    body is returned as it is. *)
Theorem create_mcp_trigger_result api_domain net strx so name description ts pols log :
  name <> "" -> forallb wf_create_tool ts = true ->
  let rq := mk_req "POST" (base_url api_domain ++ "/workspace/v2/triggers")
     (Some (JObj [("name", JStr name); ("description", JStr description); ("kind", JStr "mcp");
                  ("commands", JArr (so (override_vals "command" ts)));
                  ("connections", JArr (so (override_vals "connection" ts)));
                  ("policies", JArr (map JStr (opt_list pols)));
                  ("mcpTriggerInfo", JObj [("toolInstances", JArr ts)])])) None None in
  snd (create_mcp_trigger api_domain net strx so name description (Some ts) pols log) = app log [rq] /\
  (forall e, request_outcome strx (base_url api_domain ++ "/workspace/v2/triggers") (net rq) = Raise e ->
     fst (create_mcp_trigger api_domain net strx so name description (Some ts) pols log) =
       Raise (if is_api_error e then MCPError (MExc "Failed to create MCP trigger: " e) (Some name) else e)) /\
  (forall r fs, net rq = NetResponse r -> response_ok r = true -> json_body r = Some (JObj fs) ->
     fst (create_mcp_trigger api_domain net strx so name description (Some ts) pols log) =
       if py_truthy (dict_get fs "url" JNull) then
         Ok (JObj [("success", JBool true); ("name", JStr name); ("url", dict_get fs "url" JNull);
                   ("apiToken", dict_get fs "apiToken" JNull);
                   ("message", JStr ("MCP trigger '" ++ name ++ "' created successfully"))])
       else if py_truthy (dict_get fs "err" JNull) then
         Raise (MCPError (MFmt "" (dict_get fs "err" JNull)) (Some name))
       else Ok (JObj fs)).
Proof.
  intros Hname Hwf rq.
  pose proof (wf_create_tool_hashable "command" ts (or_introl eq_refl) Hwf) as Hc.
  pose proof (wf_create_tool_hashable "connection" ts (or_intror eq_refl) Hwf) as Hn.
  unfold create_mcp_trigger. rewrite (eqb_neq_false _ _ Hname).
  mred. change (opt_list (Some ts)) with ts.
  rewrite (collect_overrides_wf ts [] [] log (wf_create_tool_wf ts Hwf)). mred.
  cbn [app].
  unfold py_list_set. rewrite (forallb_jstr_hashable _ Hc), (forallb_jstr_hashable _ Hn). mred.
  rewrite _request_eq. fold rq.
  split; [|split].
  - destruct (request_outcome _ _ _) as [r|e]; mred.
    + destruct (json_body r) as [j|]; mred; [|reflexivity].
      destruct j as [| | | | |fs]; mred; try reflexivity.
      destruct (py_truthy (dict_get fs "url" JNull)); mred; [reflexivity|].
      destruct (py_truthy (dict_get fs "err" JNull)); mred; [|reflexivity].
      destruct (assoc_lookup "err" fs); mred; try destruct (is_api_error _); reflexivity.
    + destruct (is_api_error e); reflexivity.
  - intros e He. rewrite He. destruct (is_api_error e); reflexivity.
  - intros r fs Hnet Hok Hj. rewrite Hnet, (request_outcome_ok _ _ _ Hok), Hj. mred.
    destruct (py_truthy (dict_get fs "url" JNull)); [reflexivity|].
    destruct (py_truthy (dict_get fs "err" JNull)) eqn:Ee; [|reflexivity].
    rewrite (dict_get_truthy fs "err" _ Ee eq_refl). reflexivity.
Qed.

Lemma create_mcp_trigger_result_witness :
  fst (create_mcp_trigger "api.example.com"
         (fun _ => NetResponse (mk_response 200 [] ""
                     (Some (JObj [("url", JStr "https://mcp/m"); ("apiToken", JStr "tk");
                                  ("err", JStr "ignored")]))))
         (fun _ => "") demo_set_order "m" "" (Some []) None []) =
  Ok (JObj [("success", JBool true); ("name", JStr "m"); ("url", JStr "https://mcp/m");
            ("apiToken", JStr "tk"); ("message", JStr "MCP trigger 'm' created successfully")]).
Proof.
  exact (proj2 (proj2 (create_mcp_trigger_result "api.example.com"
                         (fun _ => NetResponse (mk_response 200 [] ""
                                     (Some (JObj [("url", JStr "https://mcp/m"); ("apiToken", JStr "tk");
                                                  ("err", JStr "ignored")]))))
                         (fun _ => "") demo_set_order "m" "" [] None [] ltac:(discriminate) eq_refl))
           _ [("url", JStr "https://mcp/m"); ("apiToken", JStr "tk"); ("err", JStr "ignored")]
           eq_refl eq_refl eq_refl).
Defined.

(** X19: when [update_mcp_trigger] is called on an MCP trigger without new
    tool instances, the PUT it sends carries the stored commands,
    connections and [mcpTriggerInfo]; an API error of that PUT becomes the
    MCP error "Failed to update MCP trigger: ...", and other exceptions are
    raised unchanged. *)
Theorem update_mcp_trigger_put_error api_domain net strx so name d fs log log1 e :
  name <> "" ->
  get_trigger api_domain net strx name log = (Ok (JObj fs), log1) ->
  is_str (dict_get fs "kind" JNull) "mcp" = true ->
  let rq := mk_req "PUT" (base_url api_domain ++ ("/workspace/v2/triggers/" ++ name))
     (Some (JObj [("name", JStr name); ("kind", JStr "mcp");
                  ("description", match d with Some s => JStr s | None => dict_get fs "description" (JStr "") end);
                  ("commands", dict_get fs "commands" (JArr []));
                  ("connections", dict_get fs "connections" (JArr []));
                  ("mcpTriggerInfo", dict_get fs "mcpTriggerInfo" (JObj []))])) None None in
  request_outcome strx (base_url api_domain ++ ("/workspace/v2/triggers/" ++ name)) (net rq) = Raise e ->
  update_mcp_trigger api_domain net strx so name d None log =
    (Raise (if is_api_error e then MCPError (MExc "Failed to update MCP trigger: " e) (Some name) else e),
     app log1 [rq]).
Proof.
  intros Hn Hg Hk rq He. unfold update_mcp_trigger. rewrite (eqb_neq_false _ _ Hn), (bind_step _ _ _ _ _ Hg).
  mred. rewrite Hk. destruct d as [s|]; mred; rewrite _request_eq; fold rq; rewrite He;
    destruct (is_api_error e); reflexivity.
Qed.

Lemma update_mcp_trigger_put_error_witness :
  update_mcp_trigger "api.example.com"
    (fun rq => if String.eqb (rq_method rq) "PUT" then NetFailure (RqTimeout "read")
               else NetResponse (mk_response 200 [] "" (Some demo_mcp_trigger)))
    (fun _ => "") demo_set_order "m" (Some "new") None [] =
  (Raise TimeoutError,
   [mk_req "GET" "https://api.example.com/workspace/v2/triggers/m" None None None;
    mk_req "PUT" "https://api.example.com/workspace/v2/triggers/m"
      (Some (JObj [("name", JStr "m"); ("kind", JStr "mcp"); ("description", JStr "new");
                   ("commands", JArr [JStr "a"]); ("connections", JArr [JStr "x"]);
                   ("mcpTriggerInfo", JObj [("toolInstances", JArr [demo_tool "keep" "a" "x"])])]))
      None None]).
Proof.
  exact (update_mcp_trigger_put_error "api.example.com"
           (fun rq => if String.eqb (rq_method rq) "PUT" then NetFailure (RqTimeout "read")
                      else NetResponse (mk_response 200 [] "" (Some demo_mcp_trigger)))
           (fun _ => "") demo_set_order "m" (Some "new")
           [("name", JStr "m"); ("kind", JStr "mcp"); ("description", JStr "d");
            ("commands", JArr [JStr "a"]); ("connections", JArr [JStr "x"]);
            ("policies", JArr [JStr "p1"]); ("triggerUrl", JStr "https://mcp");
            ("mcpTriggerInfo", JObj [("toolInstances", JArr [demo_tool "keep" "a" "x"])])]
           [] [mk_req "GET" "https://api.example.com/workspace/v2/triggers/m" None None None]
           TimeoutError ltac:(discriminate) eq_refl eq_refl eq_refl).
Defined.

(** ** [OpsBeaconClient.__init__] *)

Lemma drop_slashes_idem cs : drop_slashes (drop_slashes cs) = drop_slashes cs.
Proof.
  induction cs as [|c r IH]; [reflexivity|]. simpl.
  destruct (c =? "/")%char eqn:E; [exact IH|]. simpl. rewrite E. reflexivity.
Qed.

Lemma drop_slashes_head cs c r : drop_slashes cs = c :: r -> (c =? "/")%char = false.
Proof.
  induction cs as [|c0 r0 IH]; simpl; [discriminate|].
  destruct (c0 =? "/")%char eqn:E; [exact IH|]. intros H. injection H as <- _. exact E.
Qed.

Lemma drop_slashes_all cs : forallb (fun c => (c =? "/")%char) cs = true -> drop_slashes cs = [].
Proof.
  induction cs as [|c r IH]; simpl; [reflexivity|].
  intros H. apply andb_prop in H as [-> Hr]. exact (IH Hr).
Qed.

Lemma forallb_rev {A} (f : A -> bool) l : forallb f (rev l) = forallb f l.
Proof.
  induction l as [|x r IH]; simpl; [reflexivity|].
  rewrite forallb_app, IH. simpl. rewrite andb_true_r, andb_comm. reflexivity.
Qed.

Lemma chars_rstrip_slash s : chars (rstrip_slash s) = rev (drop_slashes (rev (chars s))).
Proof. unfold rstrip_slash, chars. rewrite list_ascii_of_string_of_list_ascii. reflexivity. Qed.

(** X20: the client rejects an empty [api_domain] and then an empty
    [api_token] with validation errors; otherwise it keeps [api_domain] with
    its trailing slashes removed, so the kept domain never ends in ["/"],
    stripping again or adding a trailing slash first changes nothing, and a
    domain made only of slashes is accepted and kept as [""]. *)
Theorem client_init_api_domain d t :
  (d = "" -> client_init d t = Raise (ValidationError "api_domain is required" (Some "api_domain"))) /\
  (d <> "" -> t = "" -> client_init d t = Raise (ValidationError "api_token is required" (Some "api_token"))) /\
  (d <> "" -> t <> "" -> client_init d t = Ok (rstrip_slash d)) /\
  (forall pre, rstrip_slash d <> pre ++ "/") /\
  rstrip_slash (rstrip_slash d) = rstrip_slash d /\
  rstrip_slash (d ++ "/") = rstrip_slash d /\
  (forallb (fun c => (c =? "/")%char) (chars d) = true -> rstrip_slash d = "").
Proof.
  split; [intros ->; reflexivity|]. split.
  { intros Hd ->. unfold client_init. rewrite (eqb_neq_false _ _ Hd). reflexivity. }
  split.
  { intros Hd Ht. unfold client_init. rewrite (eqb_neq_false _ _ Hd), (eqb_neq_false _ _ Ht). reflexivity. }
  split; [|split; [|split]].
  - intros pre H. apply (f_equal chars) in H.
    rewrite chars_rstrip_slash, chars_app in H. simpl in H.
    apply (f_equal (@rev ascii)) in H. rewrite rev_involutive, rev_app_distr in H. simpl in H.
    apply drop_slashes_head in H. discriminate H.
  - unfold rstrip_slash at 1. rewrite chars_rstrip_slash, rev_involutive, drop_slashes_idem.
    reflexivity.
  - unfold rstrip_slash. rewrite chars_app, rev_app_distr. reflexivity.
  - intros H. unfold rstrip_slash. rewrite drop_slashes_all; [reflexivity|].
    rewrite forallb_rev. exact H.
Qed.

Lemma client_init_api_domain_witness :
  client_init "api.example.com//" "tok" = Ok "api.example.com" /\ client_init "///" "tok" = Ok "".
Proof.
  split.
  - exact (proj1 (proj2 (proj2 (client_init_api_domain "api.example.com//" "tok")))
             ltac:(discriminate) ltac:(discriminate)).
  - destruct (client_init_api_domain "///" "tok") as [_ [_ [H3 [_ [_ [_ H7]]]]]].
    rewrite <- (H7 eq_refl). exact (H3 ltac:(discriminate) ltac:(discriminate)).
Defined.

(** ** The upload request of [file_upload] *)

(** X21: once its inputs are accepted, [file_upload] sends one multipart
    POST to [/workspace/v2/files] and returns the response text; an API
    error of that request becomes a file-operation error tagged ["upload"]
    that names the [file_name] argument (so [None] when only [input_file]
    was given), and other exceptions are raised unchanged. *)
Theorem file_upload_request api_domain net strx fe fr pn content name input log parts :
  upload_parts fe fr pn content name input log = (Ok parts, log) ->
  file_upload api_domain net strx fe fr pn content name input log =
    (match request_outcome strx (base_url api_domain ++ "/workspace/v2/files")
             (net (mk_req "POST" (base_url api_domain ++ "/workspace/v2/files") None
                     (Some (snd parts)) (Some (fst parts)))) with
     | Ok r => Ok (text r)
     | Raise e =>
         Raise (if is_api_error e then FileOperationError (MExc "Failed to upload file: " e) name (Some "upload")
                else e)
     end,
     app log [mk_req "POST" (base_url api_domain ++ "/workspace/v2/files") None
                (Some (snd parts)) (Some (fst parts))]).
Proof.
  intros H. unfold file_upload. rewrite (bind_step _ _ _ _ _ H). mred. rewrite _request_eq.
  destruct (request_outcome _ _ _) as [r|e]; [reflexivity|].
  destruct (is_api_error e); reflexivity.
Qed.

Lemma file_upload_request_witness :
  file_upload "api.example.com" (fun _ => NetResponse (mk_response 500 [] "down" None)) (fun _ => "")
    (fun _ => true) (fun _ => true) (fun _ => "report.csv") None None (Some "/tmp/report.csv") [] =
  (Raise (FileOperationError
            (MExc "Failed to upload file: "
               (APIError (MFmt "API error: " (JStr "down")) (Some 500%Z) (Some "down")))
            None (Some "upload")),
   [mk_req "POST" "https://api.example.com/workspace/v2/files" None
      (Some [("filename", "report.csv")])
      (Some ("report.csv", FHandle "/tmp/report.csv", "application/octet-stream"))]).
Proof.
  exact (file_upload_request "api.example.com" (fun _ => NetResponse (mk_response 500 [] "down" None))
           (fun _ => "") (fun _ => true) (fun _ => true) (fun _ => "report.csv") None None
           (Some "/tmp/report.csv") []
           (("report.csv", FHandle "/tmp/report.csv", "application/octet-stream"), [("filename", "report.csv")])
           eq_refl).
Defined.

(** ** [command_text] takes precedence in [run] *)

(** X22: when [command_text] is truthy, [run] sends one POST whose body is
    only [{"commandLine": command_text}]: [connection], [command] and
    [args] are ignored, so an [args] string that [shlex] cannot split
    raises nothing. *)
Theorem run_command_text_precedence api_domain net strx ct conn cmd args log :
  opt_truthy ct = true ->
  snd (run api_domain net strx ct conn cmd args log) =
    app log [mk_req "POST" (base_url api_domain ++ "/trigger/v1/api")
               (Some (JObj [("commandLine", JStr (opt_str ct))])) None None].
Proof.
  intros H. unfold run, run_body. rewrite H. mred. rewrite _request_eq.
  destruct (request_outcome _ _ _) as [r|e]; [destruct (json_body r); reflexivity|].
  destruct (is_api_error e); reflexivity.
Qed.

Lemma run_command_text_precedence_witness :
  snd (run "api.example.com" demo_net_upload (fun _ => "") (Some "srv: df") (Some "srv") (Some "df")
         (ArgsStr "'unclosed") []) =
  [mk_req "POST" "https://api.example.com/trigger/v1/api" (Some (JObj [("commandLine", JStr "srv: df")])) None None].
Proof.
  exact (run_command_text_precedence "api.example.com" demo_net_upload (fun _ => "") (Some "srv: df")
           (Some "srv") (Some "df") (ArgsStr "'unclosed") [] eq_refl).
Defined.

(** ** Early failures of [test_mcp_protocol] *)

(** X23: when the [initialize] POST fails (network error, error status or
    a body that is not JSON), [test_mcp_protocol] returns unsuccessful
    results whose [initialize] is [{"error": str(e)}] and sends nothing
    more; when [initialize] succeeds but [tools/list] fails, it returns the
    initialize response, [{"error": str(e)}] as [tools], and sends no tool
    call. *)
Theorem test_mcp_protocol_early_failure net strx url token tool_name log :
  url <> "" -> token <> "" ->
  (forall e, post_outcome (net (mcp_req url init_request)) = inl e ->
     test_mcp_protocol net strx url token tool_name log =
       (Ok (mk_results (error_obj strx e) JNull JNull false), app log [mcp_req url init_request])) /\
  (forall init e, post_outcome (net (mcp_req url init_request)) = inr init ->
     post_outcome (net (mcp_req url list_request)) = inl e ->
     test_mcp_protocol net strx url token tool_name log =
       (Ok (mk_results init (error_obj strx e) JNull false),
        app (app log [mcp_req url init_request]) [mcp_req url list_request])).
Proof.
  intros Hu Ht. unfold test_mcp_protocol. rewrite (eqb_neq_false _ _ Hu), (eqb_neq_false _ _ Ht).
  split.
  - intros e He. rewrite (bind_step _ _ _ (inl e) (app log [mcp_req url init_request]));
      [reflexivity | unfold mcp_post, bind, send, ret; rewrite He; reflexivity].
  - intros init e Hi Hl.
    rewrite (bind_step _ _ _ (inr init) (app log [mcp_req url init_request]));
      [| unfold mcp_post, bind, send, ret; rewrite Hi; reflexivity].
    rewrite (bind_step _ _ _ (inl e) (app (app log [mcp_req url init_request]) [mcp_req url list_request]));
      [reflexivity | unfold mcp_post, bind, send, ret; rewrite Hl; reflexivity].
Qed.

Lemma test_mcp_protocol_early_failure_witness :
  test_mcp_protocol (fun _ => NetResponse (mk_response 401 [] "" None)) (fun _ => "401 Unauthorized")
    "https://mcp" "tok" None [] =
  (Ok (mk_results (JObj [("error", JStr "401 Unauthorized")]) JNull JNull false),
   [mcp_req "https://mcp" init_request]).
Proof.
  exact (proj1 (test_mcp_protocol_early_failure (fun _ => NetResponse (mk_response 401 [] "" None))
                  (fun _ => "401 Unauthorized") "https://mcp" "tok" None [] ltac:(discriminate) ltac:(discriminate))
           (RqHTTPError 401) eq_refl).
Defined.
